(** * Prefab items of the studio library: naming and loading protocol

    A shallow embedding of [studiolibrarymaya/prefabitem.py] and
    [studiolibrarymaya/prefabclusteritem.py].  Python strings are [string],
    Python lists are [list], the instance counter (a Python [int] that starts
    at 0 and is only incremented) is a [nat].  The host scene (what the
    [maya.cmds] commands read and change) is an explicit record threaded
    through a state-and-exception monad. *)

From Stdlib Require Import String Ascii List Arith Lia Bool FinFun.
From Stdlib Require Import DecimalString DecimalNat Decimal.
Import ListNotations.

Open Scope string_scope.
Open Scope list_scope.

(** ** Python string helpers *)

Module Py.

(** [s.split(sep)] for a one-character separator. *)
Fixpoint split (sep : ascii) (s : string) : list string :=
  match s with
  | EmptyString => [EmptyString]
  | String c s' =>
      if Ascii.eqb c sep then EmptyString :: split sep s'
      else match split sep s' with
           | h :: t => String c h :: t
           | [] => [String c EmptyString]
           end
  end.

(** [sep.join(parts)]. *)
Fixpoint join (sep : string) (parts : list string) : string :=
  match parts with
  | [] => EmptyString
  | [p] => p
  | p :: rest => (p ++ sep ++ join sep rest)%string
  end.

(** [parts[:-1]] and [parts[-1]]; the latter is only used on the result of
    [split], which is never empty, so the default is never returned. *)
Definition all_but_last (parts : list string) : list string := removelast parts.
Definition last_part (parts : list string) : string := last parts EmptyString.

(** [x in xs] on a list of strings. *)
Definition contains (xs : list string) (x : string) : bool :=
  existsb (String.eqb x) xs.

(** Truth value of a string: only the empty string is false. *)
Definition truthy (s : string) : bool :=
  match s with EmptyString => false | String _ _ => true end.

(** [str(n)] for a non-negative integer. *)
Definition str_of_nat (n : nat) : string :=
  NilEmpty.string_of_uint (Nat.to_uint n).

(** Left padding with the character 0 up to [width]. *)
Fixpoint zeros (k : nat) : string :=
  match k with
  | O => EmptyString
  | S k' => String "0"%char (zeros k')
  end.

Definition zfill (width : nat) (s : string) : string :=
  (zeros (width - String.length s) ++ s)%string.

(** The format specification [{n:03d}] for a non-negative integer. *)
Definition fmt_03d (n : nat) : string := zfill 3 (str_of_nat n).

(** [s.replace(old, new)] for a non-empty [old]: occurrences are replaced
    from left to right and do not overlap.  [skip] counts the characters of
    an occurrence that has just been replaced and are still to be dropped. *)
Fixpoint replace_from (old new : string) (skip : nat) (s : string) : string :=
  match s with
  | EmptyString => EmptyString
  | String c s' =>
      match skip with
      | S k => replace_from old new k s'
      | O =>
          if String.prefix old s
          then (new ++ replace_from old new (String.length old - 1) s')%string
          else String c (replace_from old new 0 s')
      end
  end.

Definition replace (old new s : string) : string := replace_from old new 0 s.

(** [len(s)]: Python counts characters, the strings here hold their UTF-8
    bytes; the bytes 10xxxxxx continue a character and are not counted. *)
Definition is_continuation (c : ascii) : bool :=
  match c with
  | Ascii _ _ _ _ _ _ b6 b7 => b7 && negb b6
  end.

Fixpoint len (s : string) : nat :=
  match s with
  | EmptyString => O
  | String c s' => (if is_continuation c then 0 else 1) + len s'
  end.

(** [c in s] for a character [c]. *)
Fixpoint char_in (c : ascii) (s : string) : bool :=
  match s with
  | EmptyString => false
  | String d s' => Ascii.eqb d c || char_in c s'
  end.

(** [s.rsplit(sep, 1)] for a one-character separator: [Some (a, b)] stands
    for the two-element list [[a, b]] cut at the last separator, [None] for
    the one-element list [[s]] of a string without separator. *)
Fixpoint rsplit1 (sep : ascii) (s : string) : option (string * string) :=
  match s with
  | EmptyString => None
  | String c s' =>
      match rsplit1 sep s' with
      | Some (a, b) => Some (String c a, b)
      | None => if Ascii.eqb c sep then Some (EmptyString, s') else None
      end
  end.

End Py.

(** ** The host scene

    The scene graph belongs to the host application; the two Python files
    only talk to it through [maya.cmds].  The model keeps what those
    commands read and change: the nodes (namespace, short name, type,
    attributes, DAG parent), the table of namespaces and the selection.
    Namespaces are flat and the root namespace is written as the empty
    string in a node and is not listed in the table. *)

Module Maya.

(** A node is referred to by its namespace and its short name. *)
Definition ref : Type := string * string.

Definition ref_eqb (a b : ref) : bool :=
  String.eqb (fst a) (fst b) && String.eqb (snd a) (snd b).

(** The name under which the host reports a node: [ns:short]. *)
Definition full_name (r : ref) : string :=
  if String.eqb (fst r) "" then snd r else (fst r ++ ":" ++ snd r)%string.

Inductive attr_value : Type :=
| AttrBool (b : bool)
| AttrString (v : string)
| AttrMessage (connections : list ref).

Record node : Type := mkNode {
  node_ns : string;
  node_short : string;
  node_type : string;
  node_attrs : list (string * attr_value);
  node_parent : option ref
}.

Record scene : Type := mkScene {
  nodes : list node;
  namespaces : list string;
  selection : list ref
}.

Definition node_ref (n : node) : ref := (node_ns n, node_short n).
Definition node_name (n : node) : string := full_name (node_ref n).

Definition find_node (s : scene) (name : string) : option node :=
  find (fun n => String.eqb (node_name n) name) (nodes s).

Fixpoint find_attr (attrs : list (string * attr_value)) (attr : string)
  : option attr_value :=
  match attrs with
  | [] => None
  | (k, v) :: rest => if String.eqb k attr then Some v else find_attr rest attr
  end.

(** *** Queries.  A query about a name that matches no node answers
    negatively; the code studied here only queries names that the host has
    just handed out. *)

(** [cmds.objExists(name)] *)
Definition objExists (s : scene) (name : string) : bool :=
  match find_node s name with Some _ => true | None => false end.

(** [cmds.nodeType(name)] *)
Definition nodeType (s : scene) (name : string) : string :=
  match find_node s name with Some n => node_type n | None => "" end.

(** [cmds.attributeQuery(attr, node=name, exists=True)] *)
Definition attributeQuery_exists (s : scene) (attr name : string) : bool :=
  match find_node s name with
  | Some n => match find_attr (node_attrs n) attr with
              | Some _ => true
              | None => false
              end
  | None => false
  end.

(** [cmds.namespace(exists=ns)] *)
Definition namespace_exists (s : scene) (ns : string) : bool :=
  Py.contains (namespaces s) ns.

(** [cmds.namespaceInfo(listOnlyNamespaces=True, recurse=True)] issued from
    the root namespace. *)
Definition namespaceInfo (s : scene) : list string := namespaces s.

(** [cmds.listConnections(node.attr)]: the names of the connected nodes, or
    Python's [None] when nothing is connected. *)
Definition listConnections (s : scene) (name attr : string)
  : option (list string) :=
  match find_node s name with
  | Some n => match find_attr (node_attrs n) attr with
              | Some (AttrMessage (c :: cs)) => Some (map full_name (c :: cs))
              | _ => None
              end
  | None => None
  end.

(** [cmds.ls(sl=True, type="transform")] *)
Definition ls_selected_transforms (s : scene) : list string :=
  map full_name
      (filter (fun r => String.eqb (nodeType s (full_name r)) "transform")
              (selection s)).

(** [cmds.ls("*:" + short)]: the nodes with that short name in some
    namespace. *)
Definition ls_in_namespaces (s : scene) (short : string) : list string :=
  map node_name
      (filter (fun n => negb (String.eqb (node_ns n) "")
                        && String.eqb (node_short n) short)
              (nodes s)).

(** [cmds.listRelatives(name, c=True)]: the children, or [None] when there
    are none. *)
Definition listRelatives_children (s : scene) (name : string)
  : option (list string) :=
  match filter (fun n => match node_parent n with
                         | Some p => String.eqb (full_name p) name
                         | None => false
                         end) (nodes s) with
  | [] => None
  | c :: cs => Some (map node_name (c :: cs))
  end.

End Maya.

Export Maya.

(** ** Exceptions and the command monad *)

Inductive exn : Type :=
| ValueError (msg : string)
| TypeError (msg : string)
| IndexError (msg : string)
| RuntimeError (msg : string).

(** What a call does to the scene: it returns a value, raises (the scene
    keeps whatever had been changed before the exception), or does not
    return. *)
Inductive outcome (A : Type) : Type :=
| Ok (a : A) (s : scene)
| Raise (e : exn) (s : scene)
| Diverge.

Arguments Ok {A} a s.
Arguments Raise {A} e s.
Arguments Diverge {A}.

Definition host (A : Type) : Type := scene -> outcome A.

Definition ret {A : Type} (a : A) : host A := fun s => Ok a s.

Definition raise {A : Type} (e : exn) : host A := fun s => Raise e s.

Definition bind {A B : Type} (m : host A) (k : A -> host B) : host B :=
  fun s => match m s with
           | Ok a s' => k a s'
           | Raise e s' => Raise e s'
           | Diverge => Diverge
           end.

(** A command that only reads the scene. *)
Definition ask {A : Type} (q : scene -> A) : host A := fun s => Ok (q s) s.

(** [try: body  except Exception as e: handler(e)] *)
Definition try_except {A : Type} (body : host A) (handler : exn -> host A)
  : host A :=
  fun s => match body s with
           | Raise e s' => handler e s'
           | r => r
           end.

Declare Scope host_scope.
Delimit Scope host_scope with host.
Notation "x <- m ;; k" := (bind m (fun x => k))
  (at level 61, m at next level, right associativity) : host_scope.
Notation "m ;;; k" := (bind m (fun _ => k))
  (at level 61, right associativity) : host_scope.
Open Scope host_scope.

(** [[x for x in xs if p(x)]] where [p] is a command. *)
Fixpoint filterM (p : string -> host bool) (xs : list string)
  : host (list string) :=
  match xs with
  | [] => ret []
  | x :: rest =>
      keep <- p x ;;
      kept <- filterM p rest ;;
      ret (if keep then x :: kept else kept)
  end.

(** ** Host commands that change the scene *)

Module Cmds.

Definition with_nodes (s : scene) (ns : list node) : scene :=
  mkScene ns (namespaces s) (selection s).

Definition with_namespaces (s : scene) (table : list string) : scene :=
  mkScene (nodes s) table (selection s).

Definition with_selection (s : scene) (sel : list ref) : scene :=
  mkScene (nodes s) (namespaces s) sel.

(** [cmds.getAttr(node.attr)], rendered as the f-string renders it. *)
Definition getAttr (name attr : string) : host string :=
  fun s =>
    match find_node s name with
    | Some n =>
        match find_attr (node_attrs n) attr with
        | Some (AttrString v) => Ok v s
        | Some (AttrBool true) => Ok "True" s
        | Some (AttrBool false) => Ok "False" s
        | Some (AttrMessage _) =>
            Raise (RuntimeError "Message attributes have no data values.") s
        | None => Raise (RuntimeError "No object matches name") s
        end
    | None => Raise (RuntimeError "No object matches name") s
    end.

(** [cmds.namespace(add=ns)] *)
Definition namespace_add (ns : string) : host unit :=
  fun s =>
    if namespace_exists s ns
    then Raise (RuntimeError "A namespace with that name already exists.") s
    else Ok tt (with_namespaces s (namespaces s ++ [ns])).

(** Moving a reference from one namespace to another. *)
Definition rehome (ns target : string) (r : ref) : ref :=
  if String.eqb (fst r) ns then (target, snd r) else r.

Definition rehome_attr (ns target : string) (kv : string * attr_value)
  : string * attr_value :=
  match kv with
  | (k, AttrMessage cs) => (k, AttrMessage (map (rehome ns target) cs))
  | other => other
  end.

Definition rehome_node (ns target : string) (n : node) : node :=
  mkNode (fst (rehome ns target (node_ref n)))
         (node_short n)
         (node_type n)
         (map (rehome_attr ns target) (node_attrs n))
         (option_map (rehome ns target) (node_parent n)).

(** [cmds.namespace(mv=(ns, target), f=True)]: every node of [ns] goes to
    [target]; both namespaces must exist.  When [target] already holds a
    node of the same short name the host, told [f=True], gives the moved
    node another name; which one is not modelled, the node keeps its short
    name here. *)
Definition namespace_mv (ns target : string) : host unit :=
  fun s =>
    if namespace_exists s ns && namespace_exists s target
    then Ok tt (mkScene (map (rehome_node ns target) (nodes s))
                        (namespaces s)
                        (map (rehome ns target) (selection s)))
    else Raise (RuntimeError "No namespace matches name") s.

(** [cmds.namespace(rm=ns, force=True)]: only an existing, empty namespace
    can be removed. *)
Definition namespace_rm (ns : string) : host unit :=
  fun s =>
    if negb (namespace_exists s ns)
    then Raise (RuntimeError "No namespace matches name") s
    else if existsb (fun n => String.eqb (node_ns n) ns) (nodes s)
    then Raise (RuntimeError "The namespace is not empty.") s
    else Ok tt (with_namespaces s
                  (filter (fun x => negb (String.eqb x ns)) (namespaces s))).

(** [cmds.createNode(type, name=name)]: a new node in the root namespace,
    under the world; the command returns its name. *)
Definition createNode (type name : string) : host string :=
  fun s => Ok name (with_nodes s (nodes s ++ [mkNode "" name type [] None])).

Definition set_parent (name : string) (p : option ref) (n : node) : node :=
  if String.eqb (node_name n) name
  then mkNode (node_ns n) (node_short n) (node_type n) (node_attrs n) p
  else n.

Definition same_parent (p : option ref) (q : ref) : bool :=
  match p with
  | Some r => ref_eqb r q
  | None => false
  end.

(** [cmds.parent(child, grp)]: refused when one of the two nodes is
    missing, when they are the same node, or when [child] already sits
    under [grp].  The host has further reasons to refuse (a group that is a
    descendant of [child], a name that several nodes answer to); they are
    not modelled, a name stands for the first node that carries it. *)
Definition parent (child grp : string) : host unit :=
  fun s =>
    match find_node s child, find_node s grp with
    | Some c, Some g =>
        if String.eqb child grp || same_parent (node_parent c) (node_ref g)
        then Raise (RuntimeError "Object is already a child of the parent.") s
        else Ok tt (with_nodes s
                      (map (set_parent child (Some (node_ref g))) (nodes s)))
    | _, _ => Raise (RuntimeError "No object matches name") s
    end.

(** [cmds.parent(child, world=True)] *)
Definition parent_world (child : string) : host unit :=
  fun s =>
    match find_node s child with
    | Some c =>
        match node_parent c with
        | None =>
            Raise (RuntimeError "Object is already a child of the world.") s
        | Some _ => Ok tt (with_nodes s (map (set_parent child None) (nodes s)))
        end
    | None => Raise (RuntimeError "No object matches name") s
    end.

(** [cmds.select(name, r=True)] *)
Definition select_replace (name : string) : host unit :=
  fun s =>
    match find_node s name with
    | Some n => Ok tt (with_selection s [node_ref n])
    | None => Raise (RuntimeError "No object matches name") s
    end.

(** A stored scene fragment brought into the scene under [ns]: what
    [cmds.file(path, i=True, namespace=ns, returnNewNodes=True)] does for a
    file holding the nodes [fragment], when it can use [ns] as it is. *)
Definition place (ns : string) (r : ref) : ref :=
  if String.eqb (fst r) "" then (ns, snd r)
  else ((ns ++ ":" ++ fst r)%string, snd r).

Definition place_attr (ns : string) (kv : string * attr_value)
  : string * attr_value :=
  match kv with
  | (k, AttrMessage cs) => (k, AttrMessage (map (place ns) cs))
  | other => other
  end.

Definition place_node (ns : string) (n : node) : node :=
  mkNode (fst (place ns (node_ref n)))
         (node_short n)
         (node_type n)
         (map (place_attr ns) (node_attrs n))
         (option_map (place ns) (node_parent n)).

Definition import_fragment (fragment : list node) (ns : string)
  : host (list string) :=
  fun s =>
    let new_nodes := map (place_node ns) fragment in
    Ok (map node_name new_nodes)
       (mkScene (nodes s ++ new_nodes)
                (if namespace_exists s ns then namespaces s
                 else namespaces s ++ [ns])
                (selection s)).

(** [cmds.select(cl=True)] *)
Definition select_clear : host unit :=
  fun s => Ok tt (with_selection s []).

(** [cmds.namespace(mv=(ns, ":"), force=True)]: every node of [ns] goes to
    the root namespace, which always exists.  As for [namespace_mv], the
    name the host gives a moved node on a clash is not modelled. *)
Definition namespace_mv_to_root (ns : string) : host unit :=
  fun s =>
    if namespace_exists s ns
    then Ok tt (mkScene (map (rehome_node ns "") (nodes s))
                        (namespaces s)
                        (map (rehome ns "") (selection s)))
    else Raise (RuntimeError "No namespace matches name") s.

End Cmds.

(** ** studiolibrarymaya/prefabitem.py *)

Module prefabitem.

Definition PREFAB_NAME_ATTR : string := "prefab_name".

(** [swap_namespace(ns, target_ns)] *)
Definition swap_namespace (ns target_ns : string) : host unit :=
  ns_exists <- ask (fun s => namespace_exists s ns) ;;
  if negb ns_exists
  then raise (ValueError ("The given namespace '" ++ ns
                          ++ "' does not exist in this scene!"))
  else
    target_exists <- ask (fun s => namespace_exists s target_ns) ;;
    (if negb target_exists then Cmds.namespace_add target_ns else ret tt) ;;;
    Cmds.namespace_mv ns target_ns ;;;
    Cmds.namespace_rm ns.

(** [get_cache_from_root(root_node)]; the last line indexes what
    [listConnections] returned. *)
Definition get_cache_from_root (root_node : string) : host string :=
  is_prefab <- ask (fun s => attributeQuery_exists s "isPrefab" root_node) ;;
  if negb is_prefab
  then raise (ValueError ("The given node '" ++ root_node
                          ++ "' is note a valid prefab rig!"))
  else
    linked <- ask (fun s => attributeQuery_exists s "usd_cycle_cache" root_node) ;;
    if negb linked
    then raise (ValueError ("The given node '" ++ root_node
                            ++ "' has no USD cache linked to it!"))
    else
      connections <- ask (fun s => listConnections s root_node "usd_cycle_cache") ;;
      match connections with
      | None => raise (TypeError "'NoneType' object is not subscriptable")
      | Some [] => raise (IndexError "list index out of range")
      | Some (c :: _) => ret c
      end.

(** The six fields of a cache node's name. *)
Record cache_name : Type := mkCacheName {
  asset_code : string;
  asset_descriptor : string;
  asset_mod : string;
  cycle_name : string;
  cycle_descriptor : string;
  cache_version : string
}.

Definition invalid_name_msg : string :=
  "Invalid name - Could not extract: asset_code, asset_descriptor, asset_mod, cycle_name, cycle_descriptor, cache_version".

(** The first lines of [get_namespace_from_cache]: strip the namespace of
    the cache node, check the number of fields and unpack them. *)
Definition parse_cache_name (cacheNode : string) : exn + cache_name :=
  let namespace := Py.join ":" (Py.all_but_last (Py.split ":" cacheNode)) in
  let cacheNode := Py.last_part (Py.split ":" cacheNode) in
  if negb (Nat.eqb (length (Py.split "_" cacheNode)) 6)
  then inl (ValueError invalid_name_msg)
  else match Py.split "_" cacheNode with
       | [a; b; c; d; e; f] => inr (mkCacheName a b c d e f)
       | _ => inl (ValueError "not enough values to unpack")
       end.

Definition rig_name : string := "prefab".

(** The [while keepGoing] loop of [get_namespace_from_cache], started at
    [instance]; [fuel] bounds the number of iterations. *)
Fixpoint cache_loop (s : scene) (f : cache_name) (fuel instance : nat)
  : option string :=
  match fuel with
  | O => None
  | S fuel' =>
      let namespace :=
        (asset_code f ++ "_" ++ asset_descriptor f ++ "_" ++ asset_mod f
         ++ "_" ++ cycle_name f ++ "_" ++ cycle_descriptor f)%string in
      let namespace := Py.join "_" [namespace; Py.fmt_03d instance] in
      let root_name := (namespace ++ ":" ++ rig_name)%string in
      if objExists s root_name
      then cache_loop s f fuel' (S instance)
      else Some namespace
  end.

(** [get_namespace_from_cache(cacheNode)].  The loop is given one more
    iteration than the scene has nodes; running out of iterations stands
    for a call that does not return. *)
Definition get_namespace_from_cache (cacheNode : string) : host string :=
  fun s =>
    match parse_cache_name cacheNode with
    | inl e => Raise e s
    | inr f =>
        match cache_loop s f (S (length (nodes s))) 0 with
        | Some namespace => Ok namespace s
        | None => Diverge
        end
    end.

(** The [while True] loop of [get_namespace_from_root]. *)
Fixpoint root_loop (all_namespaces : list string) (base_namespace : string)
  (fuel instance : nat) : option string :=
  match fuel with
  | O => None
  | S fuel' =>
      let namespace := (base_namespace ++ "_" ++ Py.fmt_03d instance)%string in
      if negb (Py.contains all_namespaces namespace)
      then Some namespace
      else root_loop all_namespaces base_namespace fuel' (S instance)
  end.

(** [get_namespace_from_root(root_node)].  The loop is given one more
    iteration than the namespace table has entries.  Making the root
    namespace current ([setNamespace=':']) is what lets [namespaceInfo]
    list the whole table; the host's current namespace is not part of the
    scene record, so that command leaves no trace here. *)
Definition get_namespace_from_root (root_node : string)
  : host (option string) :=
  has_name <- ask (fun s => attributeQuery_exists s PREFAB_NAME_ATTR root_node) ;;
  if negb has_name then ret None
  else
    base_namespace <- Cmds.getAttr root_node PREFAB_NAME_ATTR ;;
    all_namespaces <- ask namespaceInfo ;;
    fun s =>
      match root_loop all_namespaces base_namespace
                      (S (length all_namespaces)) 0 with
      | Some namespace => Ok (Some namespace) s
      | None => Diverge
      end.

(** [group_prefab(root_node, group_name)]; the calls to the logger and to
    [print] leave the scene alone and are not modelled, here and below. *)
Definition group_prefab (root_node group_name : string) : host bool :=
  group_exists <- ask (fun s => objExists s group_name) ;;
  grp <- (if negb group_exists then Cmds.createNode "transform" group_name
          else ret group_name) ;;
  try_except (Cmds.parent root_node grp ;;; ret true)
             (fun _ => ret false).

(** The scan [for x in new_nodes] that looks for the imported root. *)
Fixpoint scan_for_root (marker : string) (s : scene) (new_nodes : list string)
  : option string :=
  match new_nodes with
  | [] => None
  | x :: rest =>
      if negb (String.eqb (nodeType s x) "transform")
      then scan_for_root marker s rest
      else if attributeQuery_exists s marker x
      then Some x
      else scan_for_root marker s rest
  end.

(** The scan followed by [if not root_node: raise ValueError(...)]. *)
Definition locate_root (marker not_found : string) (new_nodes : list string)
  : host string :=
  found <- ask (fun s => scan_for_root marker s new_nodes) ;;
  match found with
  | Some root_node =>
      if Py.truthy root_node then ret root_node
      else raise (ValueError not_found)
  | None => raise (ValueError not_found)
  end.

(** [get_namespace_from_root(root_node) or get_namespace_from_cache(cache_node)],
    after the cache node has been fetched. *)
Definition resolve_namespace (root_node : string) : host string :=
  cache_node <- get_cache_from_root root_node ;;
  from_root <- get_namespace_from_root root_node ;;
  match from_root with
  | Some namespace =>
      if Py.truthy namespace then ret namespace
      else get_namespace_from_cache cache_node
  | None => get_namespace_from_cache cache_node
  end.

(** [remove_namespace(ns)]; the handler logs and raises the exception it
    caught. *)
Definition remove_namespace (ns : string) : host unit :=
  try_except (Cmds.namespace_mv_to_root ns) (fun e => raise e) ;;;
  Cmds.namespace_rm ns.

Section Helpers.

(** [cmds.namespace(setNamespace=':')]: the host's current namespace is not
    part of the scene record, so the command is left to the host. *)
Variable cmds_namespace_set_root : host unit.

(** [list_all_namespaces()] *)
Definition list_all_namespaces : host (list string) :=
  Cmds.select_clear ;;;
  cmds_namespace_set_root ;;;
  namespaces <- ask namespaceInfo ;;
  ret namespaces.

(** [cmds.rename(node, name)], which returns the new name. *)
Variable cmds_rename : string -> string -> host string.

(** [re.search(pattern, text)]: a match object, [None], or the error of a
    pattern that does not compile. *)
Variable Match : Type.
Variable re_search : string -> string -> exn + option Match.

(** [remove_namespace_from_node(node)].  The unpacking of a one-element
    list fails and the bare [except] then takes the node as it is. *)
Definition remove_namespace_from_node (node : string) : host unit :=
  let '(namespace, name) :=
    match Py.rsplit1 ":" node with
    | Some (namespace, name) => (Some namespace, name)
    | None => (None, node)
    end in
  if match namespace with
     | Some text => Py.truthy text
     | None => false
     end
  then try_except (cmds_rename node name ;;; ret tt)
                  (fun e => match e with
                            | RuntimeError _ => ret tt
                            | other => raise other
                            end)
  else ret tt.

(** The [for ns in all_namespaces] loop of [find_namespaces]; a match
    object is always true. *)
Fixpoint find_namespaces_loop (search_ns : string)
  (all_namespaces : list string) (output : list Match)
  : exn + list Match :=
  match all_namespaces with
  | [] => inr output
  | ns :: rest =>
      match re_search search_ns ns with
      | inl e => inl e
      | inr (Some m) => find_namespaces_loop search_ns rest (output ++ [m])
      | inr None => find_namespaces_loop search_ns rest output
      end
  end.

(** [find_namespaces(search_ns)]: what the call evaluates to, [None] being
    Python's [None]. *)
Definition find_namespaces (search_ns : string)
  : host (option (list Match)) :=
  all_namespaces <- list_all_namespaces ;;
  match all_namespaces with
  | [] => ret None
  | _ :: _ =>
      match find_namespaces_loop search_ns all_namespaces [] with
      | inl e => raise e
      | inr output => ret None
      end
  end.

End Helpers.

Section PrefabItem.

(** [MayaFileItem.save], the generic file-save routine of the base class. *)
Variable MayaFileItem_save : host unit.

(** [cmds.file(self.transferPath(), i=True, namespace=..., returnNewNodes=True)]
    for the item at hand. *)
Variable cmds_file_import : string -> host (list string).

(** What the f-string of the error message shows for [self.transferPath]. *)
Variable transferPath_text : string.

Definition IMPORT_NAMESPACE : string := "PREFAB_IMPORT_TEMP".

Definition select_single_msg : string :=
  "Please select a single Prefab rig's root transform.".

(** [PrefabItem.save] *)
Definition PrefabItem_save : host unit :=
  sel <- ask ls_selected_transforms ;;
  sel <- ask (fun s => filter (attributeQuery_exists s "isPrefab") sel) ;;
  if match sel with [] => true | _ => false end || Nat.ltb 1 (length sel)
  then raise (ValueError select_single_msg)
  else MayaFileItem_save.

Definition root_not_found_msg : string :=
  ("Could not find the prefab's root node: " ++ transferPath_text)%string.

(** What [PrefabItem._load_imported] does once it holds the root. *)
Definition PrefabItem_load_from_root (root_node : string) : host string :=
  new_namespace <- resolve_namespace root_node ;;
  swap_namespace IMPORT_NAMESPACE new_namespace ;;;
  let root_node := Py.replace IMPORT_NAMESPACE new_namespace root_node in
  group_prefab root_node "__Prefabs__" ;;;
  ret new_namespace.

(** [PrefabItem._load_imported].  The Python method returns nothing; the
    model returns the namespace it has chosen. *)
Definition PrefabItem_load_imported : host string :=
  new_nodes <- cmds_file_import IMPORT_NAMESPACE ;;
  root_node <- locate_root "isPrefab" root_not_found_msg new_nodes ;;
  PrefabItem_load_from_root root_node.

(** [PrefabItem.load] *)
Definition PrefabItem_load : host string := PrefabItem_load_imported.

(** The module's [save(path, root_node)]; [path] only reaches the generic
    save routine. *)
Definition save (root_node : string) : host unit :=
  node_exists <- ask (fun s => objExists s root_node) ;;
  if negb node_exists
  then raise (ValueError ("The given node '" ++ root_node
                          ++ "' does not exist!"))
  else
    is_prefab <- ask (fun s => attributeQuery_exists s "isPrefab" root_node) ;;
    if negb is_prefab
    then raise (ValueError ("The given node " ++ root_node
                            ++ " is not a prefab rig root node!"))
    else
      Cmds.select_replace root_node ;;;
      PrefabItem_save.

(** The module's [load(path)]. *)
Definition load : host string := PrefabItem_load.

End PrefabItem.

End prefabitem.

(** ** studiolibrarymaya/prefabclusteritem.py *)

Module prefabclusteritem.

(** [group_prefab_cluster(root_node, group_name)] *)
Definition group_prefab_cluster (root_node group_name : string) : host bool :=
  group_exists <- ask (fun s => objExists s group_name) ;;
  grp <- (if negb group_exists then Cmds.createNode "transform" group_name
          else ret group_name) ;;
  try_except (Cmds.parent root_node grp ;;; ret true)
             (fun _ => ret false).

(** [remove_namespace(ns)], the same text as in [prefabitem.py]. *)
Definition remove_namespace (ns : string) : host unit :=
  try_except (Cmds.namespace_mv_to_root ns) (fun e => raise e) ;;;
  Cmds.namespace_rm ns.

(** [is_prefab(node)] *)
Definition is_prefab (node : string) : host bool :=
  node_exists <- ask (fun s => objExists s node) ;;
  if negb node_exists then ret false
  else ask (fun s => attributeQuery_exists s "isPrefab" node).

(** [is_prefab_cluster(node)] *)
Definition is_prefab_cluster (node : string) : host bool :=
  node_exists <- ask (fun s => objExists s node) ;;
  if negb node_exists then ret false
  else ask (fun s => attributeQuery_exists s "isPrefabCluster" node).

Section PrefabClusterItem.

Variable MayaFileItem_save : host unit.
Variable cmds_file_import : string -> host (list string).

(** [self.path()] *)
Variable path : string.

(** [clustersFn.ROOT_GROUP] and [rigFn.is_prefab], from the studio's own
    package. *)
Variable ROOT_GROUP : string.
Variable rigFn_is_prefab : string -> host bool.

Definition IMPORT_NAMESPACE : string := "PREFAB_CLUSTER".

Definition transferPath : string := (path ++ "/mayafile.ma")%string.

Definition select_single_msg : string :=
  "Please select a single PrefabCluster transform.".

(** [PrefabClusterItem.save]; [sel[0]] is only reached with one element. *)
Definition PrefabClusterItem_save : host unit :=
  sel <- ask ls_selected_transforms ;;
  sel <- ask (fun s => filter (attributeQuery_exists s "isPrefabCluster") sel) ;;
  if match sel with [] => true | _ => false end || Nat.ltb 1 (length sel)
  then raise (ValueError select_single_msg)
  else
    match sel with
    | [] => raise (IndexError "list index out of range")
    | sel0 :: _ =>
        Cmds.select_replace sel0 ;;;
        Cmds.parent_world sel0 ;;;
        MayaFileItem_save ;;;
        Cmds.parent sel0 ROOT_GROUP
    end.

Definition root_not_found_msg : string :=
  ("Could not find the prefab cluster's root node: " ++ transferPath)%string.

(** The namespace computed from the root's name: lines 266 to 270, where
    [duplicate_clusters] is what [cmds.ls] found. *)
Definition cluster_namespace (root_node : string)
  (duplicate_clusters : list string) : string :=
  let duplicate_cluster := Py.last_part (Py.split ":" root_node) in
  let new_namespace := (duplicate_cluster ++ "_0")%string in
  if Py.truthy duplicate_cluster
  then (duplicate_cluster ++ "_"
        ++ Py.str_of_nat (Py.len duplicate_cluster))%string
  else new_namespace.

(** What [PrefabClusterItem._load_imported] does once it holds the root. *)
Definition PrefabClusterItem_load_from_root (root_node : string)
  : host string :=
  children <- ask (fun s => listRelatives_children s root_node) ;;
  prefabs <- match children with
             | None => raise (TypeError "'NoneType' object is not iterable")
             | Some cs => filterM rigFn_is_prefab cs
             end ;;
  duplicate_clusters <-
    ask (fun s => ls_in_namespaces s (Py.last_part (Py.split ":" root_node))) ;;
  let new_namespace := cluster_namespace root_node duplicate_clusters in
  Cmds.parent root_node ROOT_GROUP ;;;
  prefabitem.swap_namespace IMPORT_NAMESPACE new_namespace ;;;
  let root_node := Py.replace IMPORT_NAMESPACE new_namespace root_node in
  ret new_namespace.

(** [PrefabClusterItem._load_imported], returning the chosen namespace. *)
Definition PrefabClusterItem_load_imported : host string :=
  new_nodes <- cmds_file_import IMPORT_NAMESPACE ;;
  root_node <- prefabitem.locate_root "isPrefabCluster" root_not_found_msg
                                      new_nodes ;;
  PrefabClusterItem_load_from_root root_node.

(** [PrefabClusterItem.load] *)
Definition PrefabClusterItem_load : host string :=
  PrefabClusterItem_load_imported.

(** [clustersFn.is_prefab_cluster], from the studio's own package. *)
Variable clustersFn_is_prefab_cluster : string -> host bool.

(** The module's [save(path, root_node)]: both refusals log an error and
    return. *)
Definition save (root_node : string) : host unit :=
  node_exists <- ask (fun s => objExists s root_node) ;;
  if negb node_exists then ret tt
  else
    is_cluster <- clustersFn_is_prefab_cluster root_node ;;
    if negb is_cluster then ret tt
    else
      Cmds.select_replace root_node ;;;
      PrefabClusterItem_save.

(** The module's [load(path)]. *)
Definition load : host string := PrefabClusterItem_load.

Definition jsonPath : string := (path ++ "/cluster.json")%string.

Definition prefabAnimPath : string := (path ++ "/prefabAnim")%string.

End PrefabClusterItem.

End prefabclusteritem.

(** ** Vocabulary of the statements *)

(** The candidate [base_{n:03d}] tried at instance [n]. *)
Definition candidate (base : string) (n : nat) : string :=
  (base ++ "_" ++ Py.fmt_03d n)%string.

(** The base that [get_namespace_from_cache] builds from five of the six
    fields. *)
Definition cache_base (f : prefabitem.cache_name) : string :=
  (prefabitem.asset_code f ++ "_" ++ prefabitem.asset_descriptor f ++ "_"
   ++ prefabitem.asset_mod f ++ "_" ++ prefabitem.cycle_name f ++ "_"
   ++ prefabitem.cycle_descriptor f)%string.

(** The search both loops perform: the first instance at or after [i] that
    is not taken, looking at no more than [fuel] instances. *)
Fixpoint first_free (taken : nat -> bool) (fuel i : nat) : option nat :=
  match fuel with
  | O => None
  | S fuel' => if taken i then first_free taken fuel' (S i) else Some i
  end.

(** Instance [n] is taken for the namespace-table variant. *)
Definition taken_in_table (all_namespaces : list string) (base : string)
  (n : nat) : bool :=
  Py.contains all_namespaces (candidate base n).

(** Instance [n] is taken for the node-existence variant. *)
Definition taken_by_node (s : scene) (base : string) (n : nat) : bool :=
  objExists s (candidate base n ++ ":" ++ prefabitem.rig_name)%string.

(** [n] is the least instance that is not taken. *)
Definition least_free (taken : nat -> bool) (n : nat) : Prop :=
  taken n = false /\ forall j, j < n -> taken j = true.

(** The test the scan applies to an imported node. *)
Definition is_root (marker : string) (s : scene) (x : string) : bool :=
  String.eqb (nodeType s x) "transform" && attributeQuery_exists s marker x.

(** The exception is one of the two "root node not found" errors. *)
Definition is_not_found (e : exn) : bool :=
  match e with
  | ValueError msg => String.prefix "Could not find the prefab" msg
  | _ => false
  end.

(** The exception is none of the two. *)
Definition foreign (e : exn) : Prop := is_not_found e = false.

(** Every exception the command can raise satisfies [P]. *)
Definition raises_only {A : Type} (P : exn -> Prop) (m : host A) : Prop :=
  forall s e s', m s = Raise e s' -> P e.

(** What [swap_namespace] leaves behind when it succeeds. *)
Definition swapped (ns target : string) (s : scene) : scene :=
  mkScene (map (Cmds.rehome_node ns target) (nodes s))
          (filter (fun x => negb (String.eqb x ns))
                  (if namespace_exists s target then namespaces s
                   else namespaces s ++ [target]))
          (map (Cmds.rehome ns target) (selection s)).

(** The scene in which the grouping transform is known to exist. *)
Definition with_group (group_name : string) (s : scene) : scene :=
  if objExists s group_name then s
  else Cmds.with_nodes s (nodes s ++ [mkNode "" group_name "transform" [] None]).

(** A run of [PrefabItem._load_imported] from [s] that returns: the import
    leaves the scene [at_choice], in which [root_node] is located and the
    namespace [new_namespace] is chosen, and the load ends in [s']. *)
Definition loads_via (cmds_file_import : string -> host (list string))
  (transferPath_text : string) (s : scene) (root_node : string)
  (at_choice : scene) (new_namespace : string) (s' : scene) : Prop :=
  exists new_nodes,
    cmds_file_import prefabitem.IMPORT_NAMESPACE s = Ok new_nodes at_choice
    /\ prefabitem.locate_root "isPrefab"
         (prefabitem.root_not_found_msg transferPath_text) new_nodes at_choice
       = Ok root_node at_choice
    /\ prefabitem.PrefabItem_load_from_root root_node at_choice
       = Ok new_namespace s'.

(** ** Example scenes *)

Module Demo.

Definition shepherd_cache : string := "c027_shepherd_m00_tall_dancing_03".
Definition shepherd_base : string := "c027_shepherd_m00_tall_dancing".

(** A cache node and a prefab root linked to it, as they sit in the scene
    right after an import; [extra] holds the root's further attributes. *)
Definition cache_node_in (ns : string) : node :=
  mkNode ns shepherd_cache "gpuCache" [] None.

Definition root_in (ns short : string) (extra : list (string * attr_value))
  : node :=
  mkNode ns short "transform"
         (("isPrefab", AttrBool true)
            :: ("usd_cycle_cache", AttrMessage [(ns, shepherd_cache)])
            :: extra)
         None.

Definition temp : string := "PREFAB_IMPORT_TEMP".

(** Two instances of [hero] are already loaded; a third one has just been
    imported. *)
Definition scene_two_heroes : scene :=
  mkScene [root_in temp "prefab" [("prefab_name", AttrString "hero")];
           cache_node_in temp]
          ["hero_000"; "hero_001"; temp]
          [].

(** The namespace of instance 0 exists but holds no node called [prefab];
    the imported root records the same base name as its cache node. *)
Definition scene_stale_namespace : scene :=
  mkScene [root_in temp "prefab" [("prefab_name", AttrString shepherd_base)];
           cache_node_in temp]
          ["c027_shepherd_m00_tall_dancing_000"; temp]
          [].

Definition empty_scene : scene := mkScene [] [] [].

(** Stored prefabs: the root and its cache node, as written to disk. *)
Definition hero_fragment : list node :=
  [root_in "" "prefab" [("prefab_name", AttrString "hero")]; cache_node_in ""].

(** A prefab whose root records no name and is not called [prefab]. *)
Definition unnamed_fragment : list node :=
  [root_in "" "rig" []; cache_node_in ""].

(** A prefab whose root records a name but has no cache linked. *)
Definition uncached_fragment : list node :=
  [mkNode "" "prefab" "transform"
          [("isPrefab", AttrBool true); ("prefab_name", AttrString "hero")]
          None].

(** A stored cluster: the cluster root and one member below it. *)
Definition crowd_fragment : list node :=
  [mkNode "" "crowd" "transform" [("isPrefabCluster", AttrBool true)] None;
   mkNode "" "member" "transform" [("isPrefab", AttrBool true)]
          (Some ("", "crowd"))].

(** A scene that holds the group under which clusters are put. *)
Definition cluster_root_group : string := "__PrefabClusters__".

Definition scene_with_cluster_group : scene :=
  mkScene [mkNode "" cluster_root_group "transform" [] None] [] [].

(** One prefab root is selected, together with its cache node. *)
Definition scene_one_selected : scene :=
  mkScene [root_in "hero_000" "prefab" []; cache_node_in "hero_000"]
          ["hero_000"]
          [("hero_000", "prefab"); ("hero_000", shepherd_cache)].

(** Two prefab roots are selected. *)
Definition scene_two_selected : scene :=
  mkScene [root_in "hero_000" "prefab" []; root_in "hero_001" "prefab" []]
          ["hero_000"; "hero_001"]
          [("hero_000", "prefab"); ("hero_001", "prefab")].

(** Stand-ins for what the studio's package and the base class provide. *)
Definition save_nothing : host unit := ret tt.
Definition is_prefab (node : string) : host bool :=
  ask (fun s => objExists s node && attributeQuery_exists s "isPrefab" node).

(** A prefab whose root has the cache attribute with nothing connected. *)
Definition unlinked_fragment : list node :=
  [mkNode "" "prefab" "transform"
          [("isPrefab", AttrBool true); ("usd_cycle_cache", AttrMessage [])]
          None].

(** The scene an outcome leaves. *)
Definition scene_after {A : Type} (o : outcome A) : scene :=
  match o with
  | Ok _ s => s
  | Raise _ s => s
  | Diverge => empty_scene
  end.

Definition load_prefab (fragment : list node) : host string :=
  prefabitem.PrefabItem_load_imported (Cmds.import_fragment fragment)
                                      "mayafile.ma".

Definition load_cluster (fragment : list node) : host string :=
  prefabclusteritem.PrefabClusterItem_load_imported
    (Cmds.import_fragment fragment) "item" cluster_root_group is_prefab.

Definition imported (fragment : list node) (s : scene) : scene :=
  scene_after (Cmds.import_fragment fragment prefabitem.IMPORT_NAMESPACE s).

Definition imported_cluster (fragment : list node) (s : scene) : scene :=
  scene_after (Cmds.import_fragment fragment
                 prefabclusteritem.IMPORT_NAMESPACE s).

(** A stored cluster whose root has no member. *)
Definition lonely_fragment : list node :=
  [mkNode "" "crowd" "transform" [("isPrefabCluster", AttrBool true)] None].

(** A prefab whose root is called [prefab] and records no name. *)
Definition plain_fragment : list node :=
  [root_in "" "prefab" []; cache_node_in ""].

(** One cluster root is selected; it sits under the cluster group. *)
Definition scene_cluster_selected : scene :=
  mkScene [mkNode "" cluster_root_group "transform" [] None;
           mkNode "" "crowd" "transform" [("isPrefabCluster", AttrBool true)]
                  (Some ("", cluster_root_group))]
          []
          [("", "crowd")].

(** One cluster root is selected; it sits under the world. *)
Definition scene_cluster_at_world : scene :=
  mkScene [mkNode "" cluster_root_group "transform" [] None;
           mkNode "" "crowd" "transform" [("isPrefabCluster", AttrBool true)]
                  None]
          []
          [("", "crowd")].

Definition hero_once : scene :=
  Eval vm_compute in scene_after (load_prefab hero_fragment empty_scene).
Definition hero_twice : scene :=
  Eval vm_compute in scene_after (load_prefab hero_fragment hero_once).
Definition unnamed_once : scene :=
  Eval vm_compute in scene_after (load_prefab unnamed_fragment empty_scene).
Definition unnamed_twice : scene :=
  Eval vm_compute in scene_after (load_prefab unnamed_fragment unnamed_once).
Definition plain_once : scene :=
  Eval vm_compute in scene_after (load_prefab plain_fragment empty_scene).
Definition plain_twice : scene :=
  Eval vm_compute in scene_after (load_prefab plain_fragment plain_once).
Definition crowd_once : scene :=
  Eval vm_compute in scene_after (load_cluster crowd_fragment scene_with_cluster_group).
Definition crowd_twice : scene :=
  Eval vm_compute in scene_after (load_cluster crowd_fragment crowd_once).

End Demo.

(** ** Strings and formatting *)

Example split_cache_name :
  Py.split "_" "c027_shepherd_m00_tall_dancing_03"
  = ["c027"; "shepherd"; "m00"; "tall"; "dancing"; "03"].
Proof. reflexivity. Qed.

Example len_counts_characters :
  Py.len "crowd" = 5
  /\ Py.len (String (ascii_of_nat 195) (String (ascii_of_nat 169) "")) = 1
  /\ String.length (String (ascii_of_nat 195) (String (ascii_of_nat 169) ""))
     = 2.
Proof. repeat split. Qed.

Example split_badname : Py.split "_" "badname" = ["badname"].
Proof. reflexivity. Qed.

Example split_trailing : Py.split "_" "a__b_" = ["a"; ""; "b"; ""].
Proof. reflexivity. Qed.

Example fmt_examples :
  Py.fmt_03d 0 = "000" /\ Py.fmt_03d 7 = "007" /\ Py.fmt_03d 42 = "042"
  /\ Py.fmt_03d 999 = "999" /\ Py.fmt_03d 1000 = "1000".
Proof. repeat split; reflexivity. Qed.

Example replace_example :
  Py.replace "PREFAB_IMPORT_TEMP" "hero_000" "PREFAB_IMPORT_TEMP:prefab"
  = "hero_000:prefab".
Proof. reflexivity. Qed.

Example parse_shepherd :
  prefabitem.parse_cache_name "SHOT:c027_shepherd_m00_tall_dancing_03"
  = inr (prefabitem.mkCacheName "c027" "shepherd" "m00" "tall" "dancing" "03").
Proof. reflexivity. Qed.

Example parse_badname :
  prefabitem.parse_cache_name "badname"
  = inl (ValueError prefabitem.invalid_name_msg).
Proof. reflexivity. Qed.

Example allocate_shepherd_in_empty_scene :
  prefabitem.get_namespace_from_cache Demo.shepherd_cache Demo.empty_scene
  = Ok "c027_shepherd_m00_tall_dancing_000" Demo.empty_scene.
Proof. reflexivity. Qed.

Lemma contains_In (xs : list string) (x : string) :
  Py.contains xs x = true <-> In x xs.
Proof.
  unfold Py.contains. rewrite existsb_exists. split.
  - intros [y [Hy E]]. apply String.eqb_eq in E. now subst.
  - intros H. exists x. split; [assumption | apply String.eqb_refl].
Qed.

Lemma append_inj_prefix (p x y : string) :
  (p ++ x = p ++ y)%string -> x = y.
Proof.
  induction p as [|c p IH]; simpl; intros H.
  - exact H.
  - inversion H. auto.
Qed.

Lemma uint_of_zeros (k : nat) (s : string) (d : uint) :
  NilEmpty.uint_of_string s = Some d ->
  exists d', NilEmpty.uint_of_string (Py.zeros k ++ s) = Some d'
             /\ Nat.of_uint d' = Nat.of_uint d.
Proof.
  intros H. induction k as [|k [d' [E V]]]; simpl.
  - exists d. now split.
  - exists (D0 d'). rewrite E. split; [reflexivity |].
    rewrite <- V. reflexivity.
Qed.

Lemma fmt_03d_value (n : nat) :
  exists d, NilEmpty.uint_of_string (Py.fmt_03d n) = Some d
            /\ Nat.of_uint d = n.
Proof.
  unfold Py.fmt_03d, Py.zfill, Py.str_of_nat.
  destruct (uint_of_zeros
              (3 - String.length (NilEmpty.string_of_uint (Nat.to_uint n)))
              _ _ (NilEmpty.usu (Nat.to_uint n))) as [d [E V]].
  exists d. split; [exact E |].
  rewrite V. apply DecimalNat.Unsigned.of_to.
Qed.

Lemma fmt_03d_inj (n m : nat) : Py.fmt_03d n = Py.fmt_03d m -> n = m.
Proof.
  intros H.
  destruct (fmt_03d_value n) as [d [E V]].
  destruct (fmt_03d_value m) as [d' [E' V']].
  rewrite H in E. rewrite E in E'. inversion E'. subst d'. congruence.
Qed.

Lemma candidate_inj (base : string) (n m : nat) :
  candidate base n = candidate base m -> n = m.
Proof.
  unfold candidate. intros H.
  apply append_inj_prefix in H. apply append_inj_prefix in H.
  now apply fmt_03d_inj.
Qed.

Lemma candidate_truthy (base : string) (n : nat) :
  Py.truthy (candidate base n) = true.
Proof.
  unfold candidate. destruct base; reflexivity.
Qed.

(** ** The search for a free instance *)

Section Search.

Variable taken : nat -> bool.

Lemma first_free_sound (fuel i n : nat) :
  first_free taken fuel i = Some n ->
  i <= n /\ taken n = false /\ forall j, i <= j < n -> taken j = true.
Proof.
  revert i. induction fuel as [|fuel IH]; simpl; intros i H; [discriminate |].
  destruct (taken i) eqn:T.
  - destruct (IH _ H) as [L [F B]]. repeat split; [lia | exact F |].
    intros j Hj. destruct (Nat.eq_dec j i) as [->|]; [exact T |].
    apply B. lia.
  - inversion H; subst. repeat split; [lia | exact T | intros; lia].
Qed.

Lemma first_free_complete (fuel i n : nat) :
  taken n = false -> i <= n -> n < i + fuel ->
  exists m, first_free taken fuel i = Some m.
Proof.
  revert i. induction fuel as [|fuel IH]; simpl; intros i F L B; [lia |].
  destruct (taken i) eqn:T.
  - apply IH; [exact F | | lia].
    destruct (Nat.eq_dec i n) as [->|]; [congruence | lia].
  - now exists i.
Qed.

Lemma first_free_more_fuel (fuel fuel' i n : nat) :
  first_free taken fuel i = Some n -> fuel <= fuel' ->
  first_free taken fuel' i = Some n.
Proof.
  revert fuel' i. induction fuel as [|fuel IH]; simpl; intros fuel' i H L;
    [discriminate |].
  destruct fuel' as [|fuel']; [lia |]. simpl.
  destruct (taken i); [apply IH; [exact H | lia] | exact H].
Qed.

Lemma first_free_least (fuel n : nat) :
  first_free taken fuel 0 = Some n -> least_free taken n.
Proof.
  intros H. destruct (first_free_sound _ _ _ H) as [_ [F B]].
  split; [exact F | intros j Hj; apply B; lia].
Qed.

Lemma least_free_unique (n m : nat) :
  least_free taken n -> least_free taken m -> n = m.
Proof.
  intros [Fn Bn] [Fm Bm].
  destruct (Nat.lt_trichotomy n m) as [L | [E | L]]; [| exact E |].
  - rewrite (Bm _ L) in Fn. discriminate.
  - rewrite (Bn _ L) in Fm. discriminate.
Qed.

(** Below any bound either all instances are taken or one is free. *)
Lemma free_below_dec (k : nat) :
  (forall j, j < k -> taken j = true) \/ (exists n, n < k /\ taken n = false).
Proof.
  induction k as [|k [A | [n [L F]]]].
  - left. intros; lia.
  - destruct (taken k) eqn:T.
    + left. intros j Hj. destruct (Nat.eq_dec j k) as [->|]; [exact T |].
      apply A. lia.
    + right. exists k. split; [lia | exact T].
  - right. exists n. split; [lia | exact F].
Qed.

End Search.

(** A finite list cannot hold more pairwise distinct names than it has
    entries. *)
Lemma free_instance_exists (names : nat -> string) (occupied : list string) :
  (forall n m, names n = names m -> n = m) ->
  exists n, n < S (length occupied) /\ ~ In (names n) occupied.
Proof.
  intros Inj.
  destruct (free_below_dec (fun n => Py.contains occupied (names n))
                           (S (length occupied))) as [A | [n [L F]]].
  - exfalso.
    assert (N : NoDup (map names (seq 0 (S (length occupied))))).
    { apply Injective_map_NoDup; [exact Inj | apply seq_NoDup]. }
    assert (I : incl (map names (seq 0 (S (length occupied)))) occupied).
    { intros x Hx. apply in_map_iff in Hx. destruct Hx as [j [<- Hj]].
      apply in_seq in Hj. apply contains_In. apply A. lia. }
    pose proof (NoDup_incl_length N I) as Len.
    rewrite length_map, length_seq in Len. lia.
  - exists n. split; [exact L |].
    intros H. apply contains_In in H. simpl in F. congruence.
Qed.

Lemma length_append (a b : string) :
  String.length (a ++ b) = String.length a + String.length b.
Proof. induction a as [|c a IH]; simpl; [reflexivity | now rewrite IH]. Qed.

Lemma append_assoc (a b c : string) :
  ((a ++ b) ++ c = a ++ (b ++ c))%string.
Proof. induction a as [|x a IH]; simpl; [reflexivity | now rewrite IH]. Qed.

Lemma append_inj_same_length (x y a b : string) :
  String.length x = String.length y ->
  (x ++ a = y ++ b)%string -> x = y /\ a = b.
Proof.
  revert y. induction x as [|c x IH]; intros [|d y] L H; simpl in *;
    try discriminate.
  - now split.
  - inversion H; subst. destruct (IH y) as [E1 E2]; [lia | assumption |].
    subst. now split.
Qed.

Lemma append_inj_suffix (x y suffix : string) :
  (x ++ suffix = y ++ suffix)%string -> x = y.
Proof.
  intros H. apply (append_inj_same_length x y suffix suffix); [| exact H].
  apply (f_equal String.length) in H. rewrite !length_append in H. lia.
Qed.

Lemma rooted_candidate_inj (base : string) (n m : nat) :
  (candidate base n ++ ":" ++ prefabitem.rig_name
   = candidate base m ++ ":" ++ prefabitem.rig_name)%string -> n = m.
Proof.
  intros H. apply append_inj_suffix in H. now apply candidate_inj in H.
Qed.

(** ** The two loops are the search *)

Lemma objExists_In (s : scene) (name : string) :
  objExists s name = true <-> In name (map node_name (nodes s)).
Proof.
  unfold objExists, find_node. split.
  - destruct (find _ (nodes s)) as [n|] eqn:F; [| discriminate].
    intros _. apply find_some in F. destruct F as [I E].
    apply String.eqb_eq in E. subst. now apply in_map.
  - intros H. apply in_map_iff in H. destruct H as [n [E I]].
    destruct (find _ (nodes s)) as [m|] eqn:F; [reflexivity |].
    apply (find_none _ _ F) in I. rewrite E, String.eqb_refl in I.
    discriminate.
Qed.

Lemma root_loop_step (all_namespaces : list string) (base : string)
  (fuel i : nat) :
  prefabitem.root_loop all_namespaces base (S fuel) i
  = if taken_in_table all_namespaces base i
    then prefabitem.root_loop all_namespaces base fuel (S i)
    else Some (candidate base i).
Proof.
  unfold taken_in_table, candidate. simpl.
  destruct (Py.contains all_namespaces _); reflexivity.
Qed.

Lemma cache_loop_step (s : scene) (f : prefabitem.cache_name) (fuel i : nat) :
  prefabitem.cache_loop s f (S fuel) i
  = if taken_by_node s (cache_base f) i
    then prefabitem.cache_loop s f fuel (S i)
    else Some (candidate (cache_base f) i).
Proof. reflexivity. Qed.

Lemma root_loop_search (all_namespaces : list string) (base : string)
  (fuel i : nat) :
  prefabitem.root_loop all_namespaces base fuel i
  = option_map (candidate base)
               (first_free (taken_in_table all_namespaces base) fuel i).
Proof.
  revert i. induction fuel as [|fuel IH]; intros i; [reflexivity |].
  rewrite root_loop_step, IH. cbn [first_free].
  destruct (taken_in_table all_namespaces base i); reflexivity.
Qed.

Lemma cache_loop_search (s : scene) (f : prefabitem.cache_name)
  (fuel i : nat) :
  prefabitem.cache_loop s f fuel i
  = option_map (candidate (cache_base f))
               (first_free (taken_by_node s (cache_base f)) fuel i).
Proof.
  revert i. induction fuel as [|fuel IH]; intros i; [reflexivity |].
  rewrite cache_loop_step, IH. cbn [first_free].
  destruct (taken_by_node s (cache_base f) i); reflexivity.
Qed.

(** With one more iteration than there are entries the table variant finds
    the least free instance. *)
Lemma table_search_finds (all_namespaces : list string) (base : string)
  (extra : nat) :
  exists n,
    first_free (taken_in_table all_namespaces base)
               (S (length all_namespaces) + extra) 0 = Some n
    /\ least_free (taken_in_table all_namespaces base) n.
Proof.
  destruct (free_instance_exists (candidate base) all_namespaces
              (candidate_inj base)) as [k [L F]].
  destruct (first_free_complete (taken_in_table all_namespaces base)
              (S (length all_namespaces) + extra) 0 k) as [n E].
  - unfold taken_in_table.
    destruct (Py.contains all_namespaces (candidate base k)) eqn:C;
      [| reflexivity].
    apply contains_In in C. contradiction.
  - lia.
  - lia.
  - exists n. split; [exact E | exact (first_free_least _ _ _ E)].
Qed.

Lemma node_search_finds (s : scene) (base : string) (extra : nat) :
  exists n,
    first_free (taken_by_node s base) (S (length (nodes s)) + extra) 0 = Some n
    /\ least_free (taken_by_node s base) n.
Proof.
  destruct (free_instance_exists
              (fun n => (candidate base n ++ ":" ++ prefabitem.rig_name)%string)
              (map node_name (nodes s))
              (rooted_candidate_inj base)) as [k [L F]].
  rewrite length_map in L.
  destruct (first_free_complete (taken_by_node s base)
              (S (length (nodes s)) + extra) 0 k) as [n E].
  - unfold taken_by_node.
    destruct (objExists s _) eqn:C; [| reflexivity].
    apply objExists_In in C. contradiction.
  - lia.
  - lia.
  - exists n. split; [exact E | exact (first_free_least _ _ _ E)].
Qed.

(** ** The two allocators *)

Lemma getAttr_exists (root attr base : string) (s s' : scene) :
  Cmds.getAttr root attr s = Ok base s' ->
  attributeQuery_exists s attr root = true /\ s' = s.
Proof.
  unfold Cmds.getAttr, attributeQuery_exists.
  destruct (find_node s root) as [n|]; [| discriminate].
  destruct (find_attr (node_attrs n) attr) as [[[|]|v|cs]|]; intros H;
    inversion H; now split.
Qed.

Lemma get_namespace_from_root_absent (root : string) (s : scene) :
  attributeQuery_exists s prefabitem.PREFAB_NAME_ATTR root = false ->
  prefabitem.get_namespace_from_root root s = Ok None s.
Proof.
  intros H. unfold prefabitem.get_namespace_from_root, bind, ask.
  rewrite H. reflexivity.
Qed.

Lemma get_namespace_from_root_least (root base : string) (s : scene) :
  Cmds.getAttr root prefabitem.PREFAB_NAME_ATTR s = Ok base s ->
  exists n,
    prefabitem.get_namespace_from_root root s = Ok (Some (candidate base n)) s
    /\ least_free (taken_in_table (namespaces s) base) n.
Proof.
  intros G. destruct (getAttr_exists _ _ _ _ _ G) as [A _].
  destruct (table_search_finds (namespaces s) base 0) as [n [E L]].
  rewrite Nat.add_0_r in E.
  exists n. split; [| exact L].
  unfold prefabitem.get_namespace_from_root, bind, ask.
  rewrite A. cbn [negb]. rewrite G. unfold namespaceInfo.
  rewrite root_loop_search, E. reflexivity.
Qed.

Lemma get_namespace_from_cache_least (cacheNode : string)
  (f : prefabitem.cache_name) (s : scene) :
  prefabitem.parse_cache_name cacheNode = inr f ->
  exists n,
    prefabitem.get_namespace_from_cache cacheNode s
    = Ok (candidate (cache_base f) n) s
    /\ least_free (taken_by_node s (cache_base f)) n.
Proof.
  intros P.
  destruct (node_search_finds s (cache_base f) 0) as [n [E L]].
  rewrite Nat.add_0_r in E.
  exists n. split; [| exact L].
  unfold prefabitem.get_namespace_from_cache.
  rewrite P, cache_loop_search, E. reflexivity.
Qed.

Lemma least_free_table_not_in (used : list string) (base : string) (n : nat) :
  least_free (taken_in_table used base) n -> ~ In (candidate base n) used.
Proof.
  intros [F _] I. apply contains_In in I. unfold taken_in_table in F.
  congruence.
Qed.

(** C1, as amended.  In every scene: for a root that records the base name
    [base], [get_namespace_from_root] returns [base_{n:03d}] for the least
    [n] whose candidate is not in the namespace table, so a value that is
    not in the table: [base_000] on an empty table and [base_002] on the
    table [base_000, base_001]; and for a cache node whose name has six
    fields, [get_namespace_from_cache] returns [base_{n:03d}] for the least
    [n] such that no node [base_{n:03d}:prefab] exists, without regard to
    the namespace table. *)
Theorem allocator_returns_least_free (s : scene) :
  (forall root base,
      Cmds.getAttr root prefabitem.PREFAB_NAME_ATTR s = Ok base s ->
      exists n,
        prefabitem.get_namespace_from_root root s
        = Ok (Some (candidate base n)) s
        /\ least_free (taken_in_table (namespaces s) base) n
        /\ ~ In (candidate base n) (namespaces s)
        /\ (namespaces s = [] -> n = 0)
        /\ (namespaces s = [candidate base 0; candidate base 1] -> n = 2))
  /\ (forall cacheNode f,
         prefabitem.parse_cache_name cacheNode = inr f ->
         exists n,
           prefabitem.get_namespace_from_cache cacheNode s
           = Ok (candidate (cache_base f) n) s
           /\ least_free (taken_by_node s (cache_base f)) n
           /\ objExists s (candidate (cache_base f) n
                           ++ ":" ++ prefabitem.rig_name) = false).
Proof.
  split.
  - intros root base G.
    destruct (get_namespace_from_root_least _ _ _ G) as [n [E L]].
    exists n. split; [exact E |]. split; [exact L |].
    split; [exact (least_free_table_not_in _ _ _ L) |]. split.
    + intros T. apply (least_free_unique _ _ _ L).
      rewrite T. split; [reflexivity | intros; lia].
    + intros T. apply (least_free_unique _ _ _ L).
      rewrite T.
      assert (N0 : (candidate base 2 =? candidate base 0)%string = false).
      { apply String.eqb_neq. intros C. apply candidate_inj in C. lia. }
      assert (N1 : (candidate base 2 =? candidate base 1)%string = false).
      { apply String.eqb_neq. intros C. apply candidate_inj in C. lia. }
      split.
      * unfold taken_in_table, Py.contains. cbn [existsb].
        rewrite N0, N1. reflexivity.
      * intros [|[|j]] Hj; [| | lia];
          unfold taken_in_table, Py.contains; cbn [existsb];
          rewrite String.eqb_refl; [reflexivity | apply orb_true_r].
  - intros cacheNode f P.
    destruct (get_namespace_from_cache_least _ _ s P) as [n [E L]].
    exists n. split; [exact E |]. split; [exact L |]. exact (proj1 L).
Qed.

Lemma allocator_returns_least_free_witness :
  (exists n,
      prefabitem.get_namespace_from_root "PREFAB_IMPORT_TEMP:prefab"
                                         Demo.scene_two_heroes
      = Ok (Some (candidate "hero" n)) Demo.scene_two_heroes
      /\ n = 2)
  /\ (exists n,
         prefabitem.get_namespace_from_cache Demo.shepherd_cache
                                             Demo.empty_scene
         = Ok (candidate Demo.shepherd_base n) Demo.empty_scene
         /\ n = 0)
  /\ (exists n,
         prefabitem.get_namespace_from_cache Demo.shepherd_cache
                                             Demo.plain_once
         = Ok (candidate Demo.shepherd_base n) Demo.plain_once
         /\ n = 1).
Proof.
  split; [| split].
  - destruct (allocator_returns_least_free Demo.scene_two_heroes)
      as [Root _].
    destruct (Root "PREFAB_IMPORT_TEMP:prefab" "hero" eq_refl)
      as [n [E [L _]]].
    exists n. split; [exact E |].
    apply (least_free_unique _ _ _ L). split; [reflexivity |].
    intros [|[|j]] Hj; [reflexivity | reflexivity | lia].
  - destruct (allocator_returns_least_free Demo.empty_scene) as [_ Cache].
    destruct (Cache Demo.shepherd_cache
                (prefabitem.mkCacheName "c027" "shepherd" "m00" "tall"
                                        "dancing" "03") eq_refl)
      as [n [E [L _]]].
    exists n. split; [exact E |].
    apply (least_free_unique _ _ _ L). split; [reflexivity |].
    intros j Hj. lia.
  - destruct (allocator_returns_least_free Demo.plain_once) as [_ Cache].
    destruct (Cache Demo.shepherd_cache
                (prefabitem.mkCacheName "c027" "shepherd" "m00" "tall"
                                        "dancing" "03") eq_refl)
      as [n [E [L _]]].
    exists n. split; [exact E |].
    apply (least_free_unique _ _ _ L). split; [vm_compute; reflexivity |].
    intros [|j] Hj; [vm_compute; reflexivity | lia].
Defined.

(** C1, counterexample.  The namespace of instance 0 is present in the
    scene but holds no node called [prefab]: the node-existence variant
    returns that very namespace. *)
Lemma allocator_may_return_existing_namespace :
  prefabitem.get_namespace_from_cache Demo.shepherd_cache
                                      Demo.scene_stale_namespace
  = Ok "c027_shepherd_m00_tall_dancing_000" Demo.scene_stale_namespace
  /\ In "c027_shepherd_m00_tall_dancing_000"
        (namespaces Demo.scene_stale_namespace).
Proof. split; [reflexivity | left; reflexivity]. Qed.

(** C7.  There is a scene in which the two variants, started from the same
    base name, choose different namespaces. *)
Theorem allocator_variants_disagree :
  exists (s : scene) (root cacheNode base : string)
         (f : prefabitem.cache_name) (a b : string),
    Cmds.getAttr root prefabitem.PREFAB_NAME_ATTR s = Ok base s
    /\ prefabitem.parse_cache_name cacheNode = inr f
    /\ cache_base f = base
    /\ prefabitem.get_namespace_from_root root s = Ok (Some a) s
    /\ prefabitem.get_namespace_from_cache cacheNode s = Ok b s
    /\ a <> b.
Proof.
  exists Demo.scene_stale_namespace, "PREFAB_IMPORT_TEMP:prefab",
         Demo.shepherd_cache, Demo.shepherd_base,
         (prefabitem.mkCacheName "c027" "shepherd" "m00" "tall" "dancing" "03"),
         "c027_shepherd_m00_tall_dancing_001",
         "c027_shepherd_m00_tall_dancing_000".
  repeat split; try reflexivity. discriminate.
Qed.

(** ** Termination of the search *)

Lemma root_loop_total (used : list string) (base : string) :
  exists n, forall extra,
    prefabitem.root_loop used base (S (length used) + extra) 0
    = Some (candidate base n).
Proof.
  destruct (table_search_finds used base 0) as [n [E _]].
  exists n. intros extra. rewrite root_loop_search.
  rewrite (first_free_more_fuel _ _ _ _ _ E); [reflexivity | lia].
Qed.

Lemma cache_loop_total (s : scene) (f : prefabitem.cache_name) :
  exists n, forall extra,
    prefabitem.cache_loop s f (S (length (nodes s)) + extra) 0
    = Some (candidate (cache_base f) n).
Proof.
  destruct (node_search_finds s (cache_base f) 0) as [n [E _]].
  exists n. intros extra. rewrite cache_loop_search.
  rewrite (first_free_more_fuel _ _ _ _ _ E); [reflexivity | lia].
Qed.

Lemma get_namespace_from_root_returns (root : string) (s : scene) :
  prefabitem.get_namespace_from_root root s = Ok None s
  \/ (exists ns, prefabitem.get_namespace_from_root root s = Ok (Some ns) s)
  \/ (exists msg, prefabitem.get_namespace_from_root root s
                  = Raise (RuntimeError msg) s).
Proof.
  destruct (attributeQuery_exists s prefabitem.PREFAB_NAME_ATTR root) eqn:A.
  - destruct (Cmds.getAttr root prefabitem.PREFAB_NAME_ATTR s)
      as [base s' | e s' |] eqn:G.
    + destruct (getAttr_exists _ _ _ _ _ G) as [_ ->].
      destruct (get_namespace_from_root_least _ _ _ G) as [n [E _]].
      right. left. eauto.
    + right. right.
      unfold prefabitem.get_namespace_from_root, bind, ask.
      rewrite A. cbn [negb]. rewrite G.
      unfold Cmds.getAttr in G.
      destruct (find_node s root) as [n|];
        [destruct (find_attr (node_attrs n) prefabitem.PREFAB_NAME_ATTR)
           as [[[|]|v|cs]|] |];
        inversion G; eauto.
    + unfold Cmds.getAttr in G.
      destruct (find_node s root) as [n|];
        [destruct (find_attr (node_attrs n) prefabitem.PREFAB_NAME_ATTR)
           as [[[|]|v|cs]|] |];
        discriminate G.
  - left. now apply get_namespace_from_root_absent.
Qed.

(** C9.  Both search loops return: given one more iteration than the
    namespace table (respectively the scene) has entries they produce a
    namespace, any further iterations allowed change nothing, and neither
    function ever fails to return. *)
Theorem allocator_search_terminates :
  (forall (used : list string) (base : string),
      exists ns, forall extra,
        prefabitem.root_loop used base (S (length used) + extra) 0 = Some ns)
  /\ (forall (s : scene) (f : prefabitem.cache_name),
         exists ns, forall extra,
           prefabitem.cache_loop s f (S (length (nodes s)) + extra) 0
           = Some ns)
  /\ (forall (root : string) (s : scene),
         prefabitem.get_namespace_from_root root s <> Diverge)
  /\ (forall (cacheNode : string) (s : scene),
         prefabitem.get_namespace_from_cache cacheNode s <> Diverge).
Proof.
  split; [| split; [| split]].
  - intros used base. destruct (root_loop_total used base) as [n H]. eauto.
  - intros s f. destruct (cache_loop_total s f) as [n H]. eauto.
  - intros root s.
    destruct (get_namespace_from_root_returns root s)
      as [E | [[ns E] | [msg E]]]; rewrite E; discriminate.
  - intros cacheNode s. unfold prefabitem.get_namespace_from_cache.
    destruct (prefabitem.parse_cache_name cacheNode) as [e | f];
      [discriminate |].
    destruct (cache_loop_total s f) as [n H].
    specialize (H 0). rewrite Nat.add_0_r in H. rewrite H. discriminate.
Qed.

(** ** The cache-node name parser *)

Lemma split_nonempty (sep : ascii) (s : string) : Py.split sep s <> [].
Proof.
  destruct s as [|c s]; simpl; [discriminate |].
  destruct (Ascii.eqb c sep); [discriminate |].
  destruct (Py.split sep s); discriminate.
Qed.

Lemma split_no_sep (sep : ascii) (s : string) :
  Py.char_in sep s = false -> Py.split sep s = [s].
Proof.
  induction s as [|c s IH]; simpl; [reflexivity |].
  intros H. apply orb_false_iff in H. destruct H as [C R].
  rewrite C, (IH R). reflexivity.
Qed.

Lemma split_append_sep (sep : ascii) (a rest : string) :
  Py.char_in sep a = false ->
  Py.split sep (a ++ String sep rest) = a :: Py.split sep rest.
Proof.
  induction a as [|c a IH]; simpl.
  - intros _. rewrite Ascii.eqb_refl. reflexivity.
  - intros H. apply orb_false_iff in H. destruct H as [C R].
    rewrite C, (IH R). reflexivity.
Qed.

Lemma char_in_append (c : ascii) (a b : string) :
  Py.char_in c (a ++ b) = Py.char_in c a || Py.char_in c b.
Proof.
  induction a as [|d a IH]; simpl; [reflexivity |].
  rewrite IH. apply orb_assoc.
Qed.

Lemma parse_cache_name_six (cacheNode a b c d e f : string) :
  Py.split "_" (Py.last_part (Py.split ":" cacheNode)) = [a; b; c; d; e; f] ->
  prefabitem.parse_cache_name cacheNode
  = inr (prefabitem.mkCacheName a b c d e f).
Proof.
  intros E. unfold prefabitem.parse_cache_name. rewrite E. reflexivity.
Qed.

Lemma parse_cache_name_other (cacheNode : string) :
  length (Py.split "_" (Py.last_part (Py.split ":" cacheNode))) <> 6 ->
  prefabitem.parse_cache_name cacheNode
  = inl (ValueError prefabitem.invalid_name_msg).
Proof.
  intros N. unfold prefabitem.parse_cache_name.
  apply Nat.eqb_neq in N. rewrite N. reflexivity.
Qed.

Lemma six_or_not (parts : list string) :
  length parts <> 6 \/ exists a b c d e f, parts = [a; b; c; d; e; f].
Proof.
  destruct parts as [|a [|b [|c [|d [|e [|f [|g rest]]]]]]];
    try (left; simpl; lia).
  right. do 6 eexists. reflexivity.
Qed.

(** C4.  Parsing succeeds with the fields [a .. f] exactly when the short
    name of the cache node (what follows its last colon) splits on the
    underscore into the six parts [a .. f], in this order; it raises the
    format error exactly when the number of parts is not six, and
    [get_namespace_from_cache] then raises that error whatever the scene,
    while with six parts it returns a namespace. *)
Theorem cache_name_parser_six_fields (cacheNode : string) :
  let parts := Py.split "_" (Py.last_part (Py.split ":" cacheNode)) in
  (forall a b c d e f : string,
      prefabitem.parse_cache_name cacheNode
      = inr (prefabitem.mkCacheName a b c d e f)
      <-> parts = [a; b; c; d; e; f])
  /\ (prefabitem.parse_cache_name cacheNode
       = inl (ValueError prefabitem.invalid_name_msg)
       <-> length parts <> 6)
  /\ (forall s : scene,
         length parts <> 6 ->
         prefabitem.get_namespace_from_cache cacheNode s
         = Raise (ValueError prefabitem.invalid_name_msg) s)
  /\ (forall s : scene,
         length parts = 6 ->
         exists ns, prefabitem.get_namespace_from_cache cacheNode s = Ok ns s).
Proof.
  intros parts.
  pose proof (parse_cache_name_six cacheNode) as P6. fold parts in P6.
  pose proof (parse_cache_name_other cacheNode) as PN. fold parts in PN.
  pose proof (six_or_not parts) as D.
  split; [| split; [| split]].
  - intros a b c d e f. split; [| apply P6].
    intros H. destruct D as [N | [a' [b' [c' [d' [e' [f' E]]]]]]].
    + rewrite (PN N) in H. discriminate.
    + rewrite (P6 _ _ _ _ _ _ E) in H. inversion H. subst. exact E.
  - split; [| exact PN].
    intros H L. destruct D as [N | [a' [b' [c' [d' [e' [f' E]]]]]]];
      [exact (N L) |].
    rewrite (P6 _ _ _ _ _ _ E) in H. discriminate.
  - intros s N. unfold prefabitem.get_namespace_from_cache.
    rewrite (PN N). reflexivity.
  - intros s L. destruct D as [N | [a [b [c [d [e [f E]]]]]]]; [contradiction |].
    destruct (get_namespace_from_cache_least cacheNode _ s (P6 _ _ _ _ _ _ E))
      as [n [H _]].
    eauto.
Qed.

(** X17.  Six fields free of underscores and colons, joined by underscores,
    are parsed back in order. *)
Lemma parse_cache_name_roundtrip (a b c d e f : string) :
  forallb (fun x => negb (Py.char_in "_" x) && negb (Py.char_in ":" x))
          [a; b; c; d; e; f] = true ->
  prefabitem.parse_cache_name (Py.join "_" [a; b; c; d; e; f])
  = inr (prefabitem.mkCacheName a b c d e f).
Proof.
  intros H. cbn [forallb] in H.
  rewrite !andb_true_iff, !negb_true_iff in H.
  destruct H as [[Ua Ca] [[Ub Cb] [[Uc Cc] [[Ud Cd] [[Ue Ce] [[Uf Cf] _]]]]]].
  apply parse_cache_name_six.
  assert (C : Py.char_in ":" (Py.join "_" [a; b; c; d; e; f]) = false).
  { cbn [Py.join]. rewrite !char_in_append. cbn [Py.char_in].
    rewrite Ca, Cb, Cc, Cd, Ce, Cf. reflexivity. }
  rewrite (split_no_sep ":" _ C). cbn [Py.last_part last Py.join].
  cbn [String.append].
  repeat (rewrite split_append_sep by assumption).
  rewrite split_no_sep by assumption. reflexivity.
Qed.

(** ** swap_namespace *)

Lemma contains_app (xs ys : list string) (x : string) :
  Py.contains (xs ++ ys) x = Py.contains xs x || Py.contains ys x.
Proof. unfold Py.contains. apply existsb_app. Qed.

Lemma contains_filter_other (xs : list string) (x ns : string) :
  x <> ns ->
  Py.contains (filter (fun y => negb (String.eqb y ns)) xs) x
  = Py.contains xs x.
Proof.
  intros N. induction xs as [|y xs IH]; simpl; [reflexivity |].
  destruct (String.eqb_spec y ns) as [-> | D]; simpl.
  - rewrite IH. destruct (String.eqb_spec x ns); [contradiction | reflexivity].
  - now rewrite IH.
Qed.


Lemma rehome_node_ns (ns target : string) (n : node) :
  node_ns (Cmds.rehome_node ns target n)
  = if String.eqb (node_ns n) ns then target else node_ns n.
Proof.
  unfold Cmds.rehome_node, Cmds.rehome, node_ref. simpl.
  destruct (String.eqb (node_ns n) ns); reflexivity.
Qed.

Lemma rehome_leaves_none (ns target : string) (ns_nodes : list node) :
  ns <> target ->
  existsb (fun n => String.eqb (node_ns n) ns)
          (map (Cmds.rehome_node ns target) ns_nodes) = false.
Proof.
  intros N. induction ns_nodes as [|n rest IH]; cbn [map existsb];
    [reflexivity |].
  rewrite IH, rehome_node_ns.
  destruct (String.eqb_spec (node_ns n) ns) as [E | D].
  - destruct (String.eqb_spec target ns); [congruence | reflexivity].
  - destruct (String.eqb_spec (node_ns n) ns); [contradiction | reflexivity].
Qed.

Lemma swap_namespace_missing (ns target : string) (s : scene) :
  namespace_exists s ns = false ->
  prefabitem.swap_namespace ns target s
  = Raise (ValueError ("The given namespace '" ++ ns
                       ++ "' does not exist in this scene!")) s.
Proof.
  intros H. unfold prefabitem.swap_namespace, bind, ask. rewrite H.
  reflexivity.
Qed.

Lemma swap_namespace_ok (ns target : string) (s : scene) :
  namespace_exists s ns = true -> ns <> target ->
  prefabitem.swap_namespace ns target s = Ok tt (swapped ns target s).
Proof.
  intros H N. unfold prefabitem.swap_namespace, bind, ask. rewrite H.
  cbn [negb]. unfold swapped.
  destruct (namespace_exists s target) eqn:T; cbn [negb].
  - unfold ret, Cmds.namespace_mv. rewrite H, T. cbn [andb].
    unfold Cmds.namespace_rm, namespace_exists. cbn [namespaces nodes].
    unfold namespace_exists in H. rewrite H. cbn [negb].
    rewrite (rehome_leaves_none _ _ _ N). reflexivity.
  - unfold Cmds.namespace_add. rewrite T.
    unfold Cmds.namespace_mv, namespace_exists, Cmds.with_namespaces.
    cbn [namespaces nodes selection].
    unfold namespace_exists in H.
    rewrite !contains_app, H. cbn [Py.contains existsb orb andb].
    rewrite String.eqb_refl, orb_true_r. cbn [andb orb].
    unfold Cmds.namespace_rm, namespace_exists. cbn [namespaces nodes].
    rewrite contains_app, H. cbn [orb negb].
    rewrite (rehome_leaves_none _ _ _ N). reflexivity.
Qed.

Lemma swapped_has_target (ns target : string) (s : scene) :
  ns <> target -> namespace_exists (swapped ns target s) target = true.
Proof.
  intros N. unfold namespace_exists, swapped. cbn [namespaces].
  rewrite contains_filter_other by congruence.
  fold (namespace_exists s target).
  destruct (namespace_exists s target) eqn:T; [exact T |].
  rewrite contains_app. cbn [Py.contains existsb].
  rewrite String.eqb_refl. apply orb_true_r.
Qed.




(** ** Grouping under the prefabs node *)

Lemma set_parent_name (child : string) (p : option ref) (n : node) :
  node_name (Cmds.set_parent child p n) = node_name n.
Proof.
  unfold Cmds.set_parent. destruct (String.eqb (node_name n) child);
    reflexivity.
Qed.

Lemma objExists_renamed (f : node -> node) (s : scene) (name : string) :
  (forall n, node_name (f n) = node_name n) ->
  objExists (Cmds.with_nodes s (map f (nodes s))) name = objExists s name.
Proof.
  intros K. unfold objExists, find_node, Cmds.with_nodes. cbn [nodes].
  induction (nodes s) as [|n rest IH]; cbn [map find]; [reflexivity |].
  rewrite K. destruct (String.eqb (node_name n) name); [reflexivity | exact IH].
Qed.

Lemma parent_outcome (child grp : string) (s : scene) :
  (exists s', Cmds.parent child grp s = Ok tt s'
              /\ forall name, objExists s' name = objExists s name)
  \/ (exists msg, Cmds.parent child grp s = Raise (RuntimeError msg) s).
Proof.
  unfold Cmds.parent.
  destruct (find_node s child) as [c|]; [| right; eauto].
  destruct (find_node s grp) as [g|]; [| right; eauto].
  destruct (String.eqb child grp || Cmds.same_parent (node_parent c) (node_ref g));
    [right; eauto |].
  left. eexists. split; [reflexivity |].
  intros name. apply objExists_renamed. intros n. apply set_parent_name.
Qed.

Lemma objExists_created (s : scene) (type name : string) :
  objExists (Cmds.with_nodes s (nodes s ++ [mkNode "" name type [] None])) name
  = true.
Proof.
  apply objExists_In. unfold Cmds.with_nodes. cbn [nodes].
  rewrite map_app. apply in_or_app. right. left. reflexivity.
Qed.

Lemma with_group_exists (group_name : string) (s : scene) :
  objExists (with_group group_name s) group_name = true.
Proof.
  unfold with_group. destruct (objExists s group_name) eqn:E; [exact E |].
  apply objExists_created.
Qed.

Lemma group_prefab_unfold (root_node group_name : string) (s : scene) :
  prefabitem.group_prefab root_node group_name s
  = match Cmds.parent root_node group_name (with_group group_name s) with
    | Ok _ s' => Ok true s'
    | Raise _ s' => Ok false s'
    | Diverge => Diverge
    end.
Proof.
  unfold prefabitem.group_prefab, with_group, bind, ask, try_except.
  destruct (objExists s group_name); cbn [negb]; unfold ret, Cmds.createNode;
    destruct (Cmds.parent root_node group_name _); reflexivity.
Qed.

Lemma group_prefab_returns (root_node group_name : string) (s : scene) :
  exists (done : bool) (s' : scene),
    prefabitem.group_prefab root_node group_name s = Ok done s'
    /\ objExists s' group_name = true
    /\ (done = true <->
        Cmds.parent root_node group_name (with_group group_name s) = Ok tt s')
    /\ (done = false <->
        exists e, Cmds.parent root_node group_name (with_group group_name s)
                  = Raise e s').
Proof.
  rewrite group_prefab_unfold.
  destruct (parent_outcome root_node group_name (with_group group_name s))
    as [[s' [E K]] | [msg E]]; rewrite E.
  - exists true, s'. split; [reflexivity |].
    split; [rewrite K; apply with_group_exists |].
    split; split; try discriminate; try reflexivity.
    intros [e H]. discriminate.
  - exists false, (with_group group_name s). split; [reflexivity |].
    split; [apply with_group_exists |].
    split; split; try discriminate; try reflexivity.
    intros _. eauto.
Qed.

Lemma group_prefab_cluster_same (root_node group_name : string) :
  prefabclusteritem.group_prefab_cluster root_node group_name
  = prefabitem.group_prefab root_node group_name.
Proof. reflexivity. Qed.

(** The last two steps of [PrefabItem._load_imported] cannot fail once the
    namespaces have been swapped. *)
Lemma load_after_swap
  (cmds_file_import : string -> host (list string))
  (transferPath_text : string)
  (s s1 s2 s3 s4 : scene) (new_nodes : list string)
  (root_node new_namespace : string) :
  cmds_file_import prefabitem.IMPORT_NAMESPACE s = Ok new_nodes s1 ->
  prefabitem.locate_root "isPrefab"
    (prefabitem.root_not_found_msg transferPath_text) new_nodes s1
  = Ok root_node s2 ->
  prefabitem.resolve_namespace root_node s2 = Ok new_namespace s3 ->
  prefabitem.swap_namespace prefabitem.IMPORT_NAMESPACE new_namespace s3
  = Ok tt s4 ->
  exists s5,
    prefabitem.PrefabItem_load_imported cmds_file_import transferPath_text s
    = Ok new_namespace s5.
Proof.
  intros I L R W.
  destruct (group_prefab_returns
              (Py.replace prefabitem.IMPORT_NAMESPACE new_namespace root_node)
              "__Prefabs__" s4) as [done [s5 [G _]]].
  exists s5.
  unfold prefabitem.PrefabItem_load_imported,
    prefabitem.PrefabItem_load_from_root, bind.
  rewrite I, L, R, W, G. reflexivity.
Qed.

(** [PrefabClusterItem._load_imported] parents the root with a bare
    [cmds.parent]: an error of that call is the result of the load. *)
Lemma cluster_load_fails_with_parent
  (ROOT_GROUP : string) (rigFn_is_prefab : string -> host bool)
  (root_node : string) (children prefabs : list string) (s s2 s3 : scene)
  (e : exn) :
  listRelatives_children s root_node = Some children ->
  filterM rigFn_is_prefab children s = Ok prefabs s2 ->
  Cmds.parent root_node ROOT_GROUP s2 = Raise e s3 ->
  prefabclusteritem.PrefabClusterItem_load_from_root
    ROOT_GROUP rigFn_is_prefab root_node s
  = Raise e s3.
Proof.
  intros C F P. unfold prefabclusteritem.PrefabClusterItem_load_from_root.
  unfold bind at 1, ask at 1. rewrite C.
  unfold bind at 1. rewrite F.
  unfold bind at 1, ask at 1. unfold bind at 1. rewrite P. reflexivity.
Qed.

(** C10, as amended.  [group_prefab] and [group_prefab_cluster] always
    return: the grouping transform exists afterwards (it is created when
    absent), the result is [False] exactly when the host refused the
    parenting, and in that case nothing propagates.  Hence a load of a
    prefab that got as far as swapping the namespaces returns, whatever the
    final parenting did.  The load of a cluster does not call
    [group_prefab_cluster]: it parents the root with [cmds.parent] itself,
    and an error of that call is the result of the load. *)
Theorem reparent_never_raises (root_node group_name : string) (s : scene) :
  (exists (done : bool) (s' : scene),
      prefabitem.group_prefab root_node group_name s = Ok done s'
      /\ objExists s' group_name = true
      /\ (done = false <->
          exists e, Cmds.parent root_node group_name (with_group group_name s)
                    = Raise e s'))
  /\ (exists (done : bool) (s' : scene),
         prefabclusteritem.group_prefab_cluster root_node group_name s
         = Ok done s'
         /\ objExists s' group_name = true
         /\ (done = false <->
             exists e, Cmds.parent root_node group_name
                                   (with_group group_name s)
                       = Raise e s'))
  /\ (forall (cmds_file_import : string -> host (list string))
             (transferPath_text : string)
             (s1 s2 s3 s4 : scene) (new_nodes : list string)
             (new_namespace : string),
         cmds_file_import prefabitem.IMPORT_NAMESPACE s = Ok new_nodes s1 ->
         prefabitem.locate_root "isPrefab"
           (prefabitem.root_not_found_msg transferPath_text) new_nodes s1
         = Ok root_node s2 ->
         prefabitem.resolve_namespace root_node s2 = Ok new_namespace s3 ->
         prefabitem.swap_namespace prefabitem.IMPORT_NAMESPACE new_namespace s3
         = Ok tt s4 ->
         exists s5,
           prefabitem.PrefabItem_load_imported cmds_file_import
                                               transferPath_text s
           = Ok new_namespace s5)
  /\ (forall (rigFn_is_prefab : string -> host bool)
             (children prefabs : list string) (s2 s3 : scene) (e : exn),
         listRelatives_children s root_node = Some children ->
         filterM rigFn_is_prefab children s = Ok prefabs s2 ->
         Cmds.parent root_node group_name s2 = Raise e s3 ->
         prefabclusteritem.PrefabClusterItem_load_from_root
           group_name rigFn_is_prefab root_node s
         = Raise e s3).
Proof.
  split; [| split; [| split]].
  - destruct (group_prefab_returns root_node group_name s)
      as [done [s' [E [X [_ F]]]]].
    exists done, s'. auto.
  - rewrite group_prefab_cluster_same.
    destruct (group_prefab_returns root_node group_name s)
      as [done [s' [E [X [_ F]]]]].
    exists done, s'. auto.
  - intros. eapply load_after_swap; eassumption.
  - intros. eapply cluster_load_fails_with_parent; eassumption.
Qed.

Lemma reparent_never_raises_witness :
  (exists s5,
      prefabitem.PrefabItem_load_imported
        (Cmds.import_fragment Demo.hero_fragment) "mayafile.ma"
        Demo.empty_scene
      = Ok "hero_000" s5)
  /\ prefabclusteritem.PrefabClusterItem_load_from_root
       Demo.cluster_root_group Demo.is_prefab "PREFAB_CLUSTER:crowd"
       (Demo.imported_cluster Demo.crowd_fragment Demo.empty_scene)
     = Raise (RuntimeError "No object matches name")
             (Demo.imported_cluster Demo.crowd_fragment Demo.empty_scene).
Proof.
  split.
  - destruct (reparent_never_raises "PREFAB_IMPORT_TEMP:prefab" "__Prefabs__"
                                    Demo.empty_scene) as [_ [_ [L _]]].
    apply (L (Cmds.import_fragment Demo.hero_fragment) "mayafile.ma"
             (Demo.imported Demo.hero_fragment Demo.empty_scene)
             (Demo.imported Demo.hero_fragment Demo.empty_scene)
             (Demo.imported Demo.hero_fragment Demo.empty_scene)
             (swapped prefabitem.IMPORT_NAMESPACE "hero_000"
                      (Demo.imported Demo.hero_fragment Demo.empty_scene))
             ["PREFAB_IMPORT_TEMP:prefab";
              "PREFAB_IMPORT_TEMP:c027_shepherd_m00_tall_dancing_03"]);
      vm_compute; reflexivity.
  - destruct (reparent_never_raises
                "PREFAB_CLUSTER:crowd" Demo.cluster_root_group
                (Demo.imported_cluster Demo.crowd_fragment Demo.empty_scene))
      as [_ [_ [_ L]]].
    apply (L Demo.is_prefab ["PREFAB_CLUSTER:member"]
             ["PREFAB_CLUSTER:member"]
             (Demo.imported_cluster Demo.crowd_fragment Demo.empty_scene));
      vm_compute; reflexivity.
Defined.

(** C10, counterexample.  The scene has no cluster group: the final
    [cmds.parent] of the cluster's load is refused, the load ends with the
    host's error, and the import namespace is left in the scene with the
    imported nodes. *)
Lemma cluster_load_fails_on_reparent :
  Demo.load_cluster Demo.crowd_fragment Demo.empty_scene
  = Raise (RuntimeError "No object matches name")
          (Demo.imported_cluster Demo.crowd_fragment Demo.empty_scene)
  /\ namespace_exists
       (Demo.imported_cluster Demo.crowd_fragment Demo.empty_scene)
       prefabclusteritem.IMPORT_NAMESPACE = true
  /\ objExists (Demo.imported_cluster Demo.crowd_fragment Demo.empty_scene)
               "PREFAB_CLUSTER:crowd" = true.
Proof. repeat split; vm_compute; reflexivity. Qed.

(** ** Locating the imported root *)

Lemma scan_for_root_find (marker : string) (s : scene)
  (new_nodes : list string) :
  prefabitem.scan_for_root marker s new_nodes
  = find (is_root marker s) new_nodes.
Proof.
  induction new_nodes as [|x rest IH]; cbn [prefabitem.scan_for_root find];
    [reflexivity |].
  unfold is_root at 1.
  destruct (String.eqb (nodeType s x) "transform"); cbn [negb andb];
    [| exact IH].
  destruct (attributeQuery_exists s marker x); [reflexivity | exact IH].
Qed.

Lemma find_first {A : Type} (p : A -> bool) (l : list A) (x : A) :
  find p l = Some x ->
  exists pre post,
    l = pre ++ x :: post /\ p x = true
    /\ forall y, In y pre -> p y = false.
Proof.
  induction l as [|a l IH]; cbn [find]; [discriminate |].
  destruct (p a) eqn:E.
  - intros H. inversion H; subst. exists [], l.
    repeat split; [exact E | intros y []].
  - intros H. destruct (IH H) as [pre [post [L [P F]]]].
    exists (a :: pre), post. subst l. repeat split; [exact P |].
    intros y [<- | I]; [exact E | exact (F y I)].
Qed.

Lemma truthy_nonempty (x : string) : x <> "" -> Py.truthy x = true.
Proof. destruct x; [congruence | reflexivity]. Qed.

Lemma locate_root_find (marker msg : string) (new_nodes : list string)
  (s : scene) :
  (forall x, In x new_nodes -> x <> "") ->
  prefabitem.locate_root marker msg new_nodes s
  = match find (is_root marker s) new_nodes with
    | Some root_node => Ok root_node s
    | None => Raise (ValueError msg) s
    end.
Proof.
  intros NE. unfold prefabitem.locate_root, bind, ask.
  rewrite scan_for_root_find.
  destruct (find (is_root marker s) new_nodes) as [x|] eqn:F; [| reflexivity].
  apply find_some in F. destruct F as [I _].
  rewrite (truthy_nonempty x (NE x I)). reflexivity.
Qed.

(** *** Which exceptions the later steps can raise *)

Lemma raises_only_bind {A B : Type} (P : exn -> Prop) (m : host A)
  (k : A -> host B) :
  raises_only P m -> (forall a, raises_only P (k a)) ->
  raises_only P (bind m k).
Proof.
  intros Hm Hk s e s'. unfold bind.
  destruct (m s) as [a s1 | e1 s1 |] eqn:E; intros H.
  - exact (Hk a _ _ _ H).
  - inversion H; subst. exact (Hm _ _ _ E).
  - discriminate.
Qed.

Lemma raises_only_ret {A : Type} (P : exn -> Prop) (a : A) :
  raises_only P (ret a).
Proof. intros s e s' H. discriminate. Qed.

Lemma raises_only_ask {A : Type} (P : exn -> Prop) (q : scene -> A) :
  raises_only P (ask q).
Proof. intros s e s' H. discriminate. Qed.

Lemma raises_only_raise {A : Type} (P : exn -> Prop) (e : exn) :
  P e -> raises_only P (@raise A e).
Proof. intros H s e' s' E. inversion E; subst. exact H. Qed.

Lemma namespace_add_foreign (ns : string) :
  raises_only foreign (Cmds.namespace_add ns).
Proof.
  intros s e s'. unfold Cmds.namespace_add.
  destruct (namespace_exists s ns); intros H; inversion H; reflexivity.
Qed.

Lemma namespace_mv_foreign (ns target : string) :
  raises_only foreign (Cmds.namespace_mv ns target).
Proof.
  intros s e s'. unfold Cmds.namespace_mv.
  destruct (namespace_exists s ns && namespace_exists s target); intros H;
    inversion H; reflexivity.
Qed.

Lemma namespace_rm_foreign (ns : string) :
  raises_only foreign (Cmds.namespace_rm ns).
Proof.
  intros s e s'. unfold Cmds.namespace_rm.
  destruct (negb (namespace_exists s ns));
    [| destruct (existsb _ (nodes s))]; intros H; inversion H; reflexivity.
Qed.

Lemma parent_foreign (child grp : string) :
  raises_only foreign (Cmds.parent child grp).
Proof.
  intros s e s' H.
  destruct (parent_outcome child grp s) as [[s1 [E _]] | [msg E]];
    rewrite E in H; inversion H; reflexivity.
Qed.

Lemma swap_namespace_foreign (ns target : string) :
  raises_only foreign (prefabitem.swap_namespace ns target).
Proof.
  unfold prefabitem.swap_namespace.
  apply raises_only_bind; [apply raises_only_ask |]. intros ns_exists.
  destruct (negb ns_exists); [apply raises_only_raise; reflexivity |].
  apply raises_only_bind; [apply raises_only_ask |]. intros target_exists.
  apply raises_only_bind.
  - destruct (negb target_exists);
      [apply namespace_add_foreign | apply raises_only_ret].
  - intros _. apply raises_only_bind; [apply namespace_mv_foreign |].
    intros _. apply namespace_rm_foreign.
Qed.

Lemma get_cache_from_root_foreign (root_node : string) :
  raises_only foreign (prefabitem.get_cache_from_root root_node).
Proof.
  unfold prefabitem.get_cache_from_root.
  apply raises_only_bind; [apply raises_only_ask |]. intros is_prefab.
  destruct (negb is_prefab); [apply raises_only_raise; reflexivity |].
  apply raises_only_bind; [apply raises_only_ask |]. intros linked.
  destruct (negb linked); [apply raises_only_raise; reflexivity |].
  apply raises_only_bind; [apply raises_only_ask |].
  intros [[|c cs]|];
    [apply raises_only_raise; reflexivity | apply raises_only_ret
     | apply raises_only_raise; reflexivity].
Qed.

Lemma get_namespace_from_root_foreign (root_node : string) :
  raises_only foreign (prefabitem.get_namespace_from_root root_node).
Proof.
  intros s e s' H.
  destruct (get_namespace_from_root_returns root_node s)
    as [E | [[ns E] | [msg E]]]; rewrite E in H; inversion H; reflexivity.
Qed.

Lemma get_namespace_from_cache_foreign (cacheNode : string) :
  raises_only foreign (prefabitem.get_namespace_from_cache cacheNode).
Proof.
  intros s e s'. unfold prefabitem.get_namespace_from_cache.
  destruct (prefabitem.parse_cache_name cacheNode) as [e1 | f] eqn:P.
  - intros H. inversion H; subst. unfold prefabitem.parse_cache_name in P.
    destruct (negb _) in P; [inversion P; reflexivity |].
    destruct (Py.split "_" _) as [|a [|b [|c [|d [|e0 [|f [|g rest]]]]]]];
      inversion P; reflexivity.
  - destruct (prefabitem.cache_loop s f _ 0); discriminate.
Qed.

Lemma resolve_namespace_foreign (root_node : string) :
  raises_only foreign (prefabitem.resolve_namespace root_node).
Proof.
  unfold prefabitem.resolve_namespace.
  apply raises_only_bind; [apply get_cache_from_root_foreign |].
  intros cache_node.
  apply raises_only_bind; [apply get_namespace_from_root_foreign |].
  intros [namespace|]; [| apply get_namespace_from_cache_foreign].
  destruct (Py.truthy namespace);
    [apply raises_only_ret | apply get_namespace_from_cache_foreign].
Qed.

Lemma group_prefab_foreign (root_node group_name : string) :
  raises_only foreign (prefabitem.group_prefab root_node group_name).
Proof.
  intros s e s' H.
  destruct (group_prefab_returns root_node group_name s)
    as [done [s1 [E _]]].
  rewrite E in H. discriminate.
Qed.

Lemma PrefabItem_load_from_root_foreign (root_node : string) :
  raises_only foreign (prefabitem.PrefabItem_load_from_root root_node).
Proof.
  unfold prefabitem.PrefabItem_load_from_root.
  apply raises_only_bind; [apply resolve_namespace_foreign |].
  intros new_namespace.
  apply raises_only_bind; [apply swap_namespace_foreign |]. intros _.
  apply raises_only_bind; [apply group_prefab_foreign |]. intros _.
  apply raises_only_ret.
Qed.

Lemma filterM_foreign (p : string -> host bool) (xs : list string) :
  (forall x, raises_only foreign (p x)) ->
  raises_only foreign (filterM p xs).
Proof.
  intros Hp. induction xs as [|x rest IH]; cbn [filterM];
    [apply raises_only_ret |].
  apply raises_only_bind; [apply Hp |]. intros keep.
  apply raises_only_bind; [exact IH |]. intros kept. apply raises_only_ret.
Qed.

Lemma PrefabClusterItem_load_from_root_foreign
  (ROOT_GROUP : string) (rigFn_is_prefab : string -> host bool)
  (root_node : string) :
  (forall x, raises_only foreign (rigFn_is_prefab x)) ->
  raises_only foreign
    (prefabclusteritem.PrefabClusterItem_load_from_root
       ROOT_GROUP rigFn_is_prefab root_node).
Proof.
  intros Hp. unfold prefabclusteritem.PrefabClusterItem_load_from_root.
  apply raises_only_bind; [apply raises_only_ask |]. intros children.
  apply raises_only_bind.
  - destruct children as [cs|];
      [apply filterM_foreign; exact Hp | apply raises_only_raise; reflexivity].
  - intros prefabs.
    apply raises_only_bind; [apply raises_only_ask |]. intros duplicates.
    apply raises_only_bind; [apply parent_foreign |]. intros _.
    apply raises_only_bind; [apply swap_namespace_foreign |]. intros _.
    apply raises_only_ret.
Qed.

Lemma not_found_is_not_foreign (msg : string) :
  String.prefix "Could not find the prefab" msg = true ->
  ~ foreign (ValueError msg).
Proof. unfold foreign. simpl. intros H. rewrite H. discriminate. Qed.

(** C6.  Let the import step have produced the nodes [new_nodes] (the host
    hands out no empty name).  The root both loads go on with is the first
    of these nodes that is a transform and carries the marker attribute,
    and the load raises its "root node not found" error, leaving the scene
    as imported, exactly when no node passes that test.  For the cluster
    the last equivalence supposes that the studio's [is_prefab] does not
    raise an error of that kind itself. *)
Theorem root_is_first_marked_transform
  (cmds_file_import : string -> host (list string))
  (transferPath_text path ROOT_GROUP : string)
  (rigFn_is_prefab : string -> host bool)
  (s s1 : scene) (new_nodes : list string) :
  (forall x, In x new_nodes -> x <> "") ->
  (forall marker root_node,
      find (is_root marker s1) new_nodes = Some root_node ->
      exists pre post,
        new_nodes = pre ++ root_node :: post
        /\ is_root marker s1 root_node = true
        /\ forall y, In y pre -> is_root marker s1 y = false)
  /\ (cmds_file_import prefabitem.IMPORT_NAMESPACE s = Ok new_nodes s1 ->
      prefabitem.PrefabItem_load_imported cmds_file_import transferPath_text s
      = match find (is_root "isPrefab" s1) new_nodes with
        | Some root_node => prefabitem.PrefabItem_load_from_root root_node s1
        | None =>
            Raise (ValueError (prefabitem.root_not_found_msg transferPath_text))
                  s1
        end
      /\ (prefabitem.PrefabItem_load_imported cmds_file_import
                                              transferPath_text s
          = Raise (ValueError (prefabitem.root_not_found_msg transferPath_text))
                  s1
          <-> find (is_root "isPrefab" s1) new_nodes = None))
  /\ (cmds_file_import prefabclusteritem.IMPORT_NAMESPACE s = Ok new_nodes s1 ->
      prefabclusteritem.PrefabClusterItem_load_imported
        cmds_file_import path ROOT_GROUP rigFn_is_prefab s
      = match find (is_root "isPrefabCluster" s1) new_nodes with
        | Some root_node =>
            prefabclusteritem.PrefabClusterItem_load_from_root
              ROOT_GROUP rigFn_is_prefab root_node s1
        | None =>
            Raise (ValueError (prefabclusteritem.root_not_found_msg path)) s1
        end
      /\ ((forall x, raises_only foreign (rigFn_is_prefab x)) ->
          (prefabclusteritem.PrefabClusterItem_load_imported
             cmds_file_import path ROOT_GROUP rigFn_is_prefab s
           = Raise (ValueError (prefabclusteritem.root_not_found_msg path)) s1
           <-> find (is_root "isPrefabCluster" s1) new_nodes = None))).
Proof.
  intros NE. split; [| split].
  - intros marker root_node F. exact (find_first _ _ _ F).
  - intros I.
    assert (E : prefabitem.PrefabItem_load_imported cmds_file_import
                  transferPath_text s
                = match find (is_root "isPrefab" s1) new_nodes with
                  | Some root_node =>
                      prefabitem.PrefabItem_load_from_root root_node s1
                  | None =>
                      Raise (ValueError
                               (prefabitem.root_not_found_msg transferPath_text))
                            s1
                  end).
    { unfold prefabitem.PrefabItem_load_imported, bind at 1. rewrite I.
      unfold bind at 1. rewrite (locate_root_find _ _ _ _ NE).
      destruct (find (is_root "isPrefab" s1) new_nodes); reflexivity. }
    split; [exact E |]. rewrite E.
    destruct (find (is_root "isPrefab" s1) new_nodes) as [root_node|].
    + split; [| discriminate]. intros H. exfalso.
      apply PrefabItem_load_from_root_foreign in H.
      revert H. apply not_found_is_not_foreign. reflexivity.
    + split; reflexivity.
  - intros I.
    assert (E : prefabclusteritem.PrefabClusterItem_load_imported
                  cmds_file_import path ROOT_GROUP rigFn_is_prefab s
                = match find (is_root "isPrefabCluster" s1) new_nodes with
                  | Some root_node =>
                      prefabclusteritem.PrefabClusterItem_load_from_root
                        ROOT_GROUP rigFn_is_prefab root_node s1
                  | None =>
                      Raise (ValueError
                               (prefabclusteritem.root_not_found_msg path)) s1
                  end).
    { unfold prefabclusteritem.PrefabClusterItem_load_imported, bind at 1.
      rewrite I. unfold bind at 1. rewrite (locate_root_find _ _ _ _ NE).
      destruct (find (is_root "isPrefabCluster" s1) new_nodes); reflexivity. }
    split; [exact E |]. intros Hp. rewrite E.
    destruct (find (is_root "isPrefabCluster" s1) new_nodes) as [root_node|].
    + split; [| discriminate]. intros H. exfalso.
      apply (PrefabClusterItem_load_from_root_foreign _ _ _ Hp) in H.
      revert H. apply not_found_is_not_foreign. reflexivity.
    + split; reflexivity.
Qed.

Lemma root_is_first_marked_transform_witness :
  exists (new_nodes : list string) (s1 : scene),
    Cmds.import_fragment Demo.hero_fragment prefabitem.IMPORT_NAMESPACE
                         Demo.empty_scene
    = Ok new_nodes s1
    /\ new_nodes = ["PREFAB_IMPORT_TEMP:prefab";
                    "PREFAB_IMPORT_TEMP:c027_shepherd_m00_tall_dancing_03"]
    /\ prefabitem.PrefabItem_load_imported
         (Cmds.import_fragment Demo.hero_fragment) "mayafile.ma"
         Demo.empty_scene
       = prefabitem.PrefabItem_load_from_root "PREFAB_IMPORT_TEMP:prefab" s1.
Proof.
  eexists. eexists. split; [reflexivity |]. split; [reflexivity |].
  match goal with
  | |- _ = _ _ ?s1 =>
      destruct (root_is_first_marked_transform
                  (Cmds.import_fragment Demo.hero_fragment)
                  "mayafile.ma" "item" Demo.cluster_root_group Demo.is_prefab
                  Demo.empty_scene s1
                  ["PREFAB_IMPORT_TEMP:prefab";
                   "PREFAB_IMPORT_TEMP:c027_shepherd_m00_tall_dancing_03"])
        as [_ [P _]]
  end.
  - intros x [<- | [<- | []]]; discriminate.
  - destruct (P eq_refl) as [E _]. rewrite E. reflexivity.
Defined.

(** ** The save validators *)

Lemma single_or_not {A : Type} (l : list A) :
  (exists x, l = [x]) \/ length l <> 1.
Proof.
  destruct l as [|x [|y rest]]; [right | left | right]; simpl;
    try lia; eauto.
Qed.

Lemma PrefabItem_save_rejects (MayaFileItem_save : host unit) (s : scene) :
  length (filter (attributeQuery_exists s "isPrefab")
                 (ls_selected_transforms s)) <> 1 ->
  prefabitem.PrefabItem_save MayaFileItem_save s
  = Raise (ValueError prefabitem.select_single_msg) s.
Proof.
  intros H. unfold prefabitem.PrefabItem_save, bind, ask.
  destruct (filter _ (ls_selected_transforms s)) as [|x [|y rest]];
    simpl in *; [reflexivity | lia | reflexivity].
Qed.

Lemma PrefabItem_save_delegates (MayaFileItem_save : host unit) (s : scene)
  (x : string) :
  filter (attributeQuery_exists s "isPrefab") (ls_selected_transforms s) = [x] ->
  prefabitem.PrefabItem_save MayaFileItem_save s = MayaFileItem_save s.
Proof.
  intros H. unfold prefabitem.PrefabItem_save, bind, ask. rewrite H.
  reflexivity.
Qed.

Lemma PrefabClusterItem_save_rejects (MayaFileItem_save : host unit)
  (ROOT_GROUP : string) (s : scene) :
  length (filter (attributeQuery_exists s "isPrefabCluster")
                 (ls_selected_transforms s)) <> 1 ->
  prefabclusteritem.PrefabClusterItem_save MayaFileItem_save ROOT_GROUP s
  = Raise (ValueError prefabclusteritem.select_single_msg) s.
Proof.
  intros H. unfold prefabclusteritem.PrefabClusterItem_save, bind, ask.
  destruct (filter _ (ls_selected_transforms s)) as [|x [|y rest]];
    simpl in *; [reflexivity | lia | reflexivity].
Qed.

Lemma PrefabClusterItem_save_delegates (MayaFileItem_save : host unit)
  (ROOT_GROUP : string) (s : scene) (x : string) :
  filter (attributeQuery_exists s "isPrefabCluster")
         (ls_selected_transforms s) = [x] ->
  prefabclusteritem.PrefabClusterItem_save MayaFileItem_save ROOT_GROUP s
  = (Cmds.select_replace x ;;; Cmds.parent_world x ;;;
     MayaFileItem_save ;;; Cmds.parent x ROOT_GROUP) s.
Proof.
  intros H. unfold prefabclusteritem.PrefabClusterItem_save.
  unfold bind at 1, ask at 1. unfold bind at 1, ask at 1. rewrite H.
  reflexivity.
Qed.

Lemma PrefabClusterItem_save_unparent_fails (MayaFileItem_save : host unit)
  (ROOT_GROUP : string) (s s1 : scene) (x : string) (e : exn) :
  filter (attributeQuery_exists s "isPrefabCluster")
         (ls_selected_transforms s) = [x] ->
  (Cmds.select_replace x ;;; Cmds.parent_world x) s = Raise e s1 ->
  prefabclusteritem.PrefabClusterItem_save MayaFileItem_save ROOT_GROUP s
  = Raise e s1.
Proof.
  intros H P.
  rewrite (PrefabClusterItem_save_delegates MayaFileItem_save ROOT_GROUP s x H).
  unfold bind in *.
  destruct (Cmds.select_replace x s) as [u s2 | e2 s2 |]; [| exact P ..].
  destruct (Cmds.parent_world x s2) as [u' s3 | e3 s3 |];
    [discriminate P | exact P ..].
Qed.

(** C5, as amended.  Let [prefabs] (resp. [clusters]) be the selected
    transforms that carry [isPrefab] (resp. [isPrefabCluster]).  Unless there
    is exactly one of them, [save] raises the validation error and leaves
    the scene as it was, whatever the generic save routine is.  With exactly
    one, [PrefabItem.save] is the generic save routine.
    [PrefabClusterItem.save] first selects that node and puts it under the
    world: when the host has done so, it runs the generic save routine and
    then parents the node back; when the host refuses, the host's error is
    the result of [save] and the generic save routine is not run. *)
Theorem save_requires_single_root (MayaFileItem_save : host unit)
  (ROOT_GROUP : string) (s : scene) :
  let prefabs := filter (attributeQuery_exists s "isPrefab")
                        (ls_selected_transforms s) in
  let clusters := filter (attributeQuery_exists s "isPrefabCluster")
                         (ls_selected_transforms s) in
  ((exists x, prefabs = [x]) \/ length prefabs <> 1)
  /\ (length prefabs <> 1 ->
      prefabitem.PrefabItem_save MayaFileItem_save s
      = Raise (ValueError prefabitem.select_single_msg) s)
  /\ (forall x, prefabs = [x] ->
                prefabitem.PrefabItem_save MayaFileItem_save s
                = MayaFileItem_save s)
  /\ (length clusters <> 1 ->
      prefabclusteritem.PrefabClusterItem_save MayaFileItem_save ROOT_GROUP s
      = Raise (ValueError prefabclusteritem.select_single_msg) s)
  /\ (forall x, clusters = [x] ->
        prefabclusteritem.PrefabClusterItem_save MayaFileItem_save ROOT_GROUP s
        = (Cmds.select_replace x ;;; Cmds.parent_world x ;;;
           MayaFileItem_save ;;; Cmds.parent x ROOT_GROUP) s
        /\ (forall s',
               (Cmds.select_replace x ;;; Cmds.parent_world x) s = Ok tt s' ->
               prefabclusteritem.PrefabClusterItem_save MayaFileItem_save
                                                        ROOT_GROUP s
               = (MayaFileItem_save ;;; Cmds.parent x ROOT_GROUP) s')
        /\ (forall e s',
               (Cmds.select_replace x ;;; Cmds.parent_world x) s
               = Raise e s' ->
               prefabclusteritem.PrefabClusterItem_save MayaFileItem_save
                                                        ROOT_GROUP s
               = Raise e s')).
Proof.
  intros prefabs clusters.
  split; [apply single_or_not |].
  split; [apply PrefabItem_save_rejects |].
  split; [apply PrefabItem_save_delegates |].
  split; [apply PrefabClusterItem_save_rejects |].
  intros x H.
  pose proof (PrefabClusterItem_save_delegates
                MayaFileItem_save ROOT_GROUP s x H) as E.
  split; [exact E |]. split.
  - intros s' P. rewrite E. unfold bind in *.
    destruct (Cmds.select_replace x s) as [u s1 | e s1 |]; [| discriminate ..].
    destruct (Cmds.parent_world x s1) as [u' s2 | e s2 |];
      [| discriminate ..].
    inversion P; subst. reflexivity.
  - intros e s' P.
    exact (PrefabClusterItem_save_unparent_fails _ _ _ _ _ _ H P).
Qed.

Lemma save_requires_single_root_witness :
  (prefabitem.PrefabItem_save Demo.save_nothing Demo.scene_one_selected
   = Ok tt Demo.scene_one_selected
   /\ prefabitem.PrefabItem_save Demo.save_nothing Demo.scene_two_selected
      = Raise (ValueError prefabitem.select_single_msg)
              Demo.scene_two_selected)
  /\ (prefabclusteritem.PrefabClusterItem_save
        Demo.save_nothing Demo.cluster_root_group Demo.scene_cluster_selected
      = Ok tt Demo.scene_cluster_selected
      /\ prefabclusteritem.PrefabClusterItem_save
           Demo.save_nothing Demo.cluster_root_group Demo.empty_scene
         = Raise (ValueError prefabclusteritem.select_single_msg)
                 Demo.empty_scene).
Proof.
  split; split.
  - destruct (save_requires_single_root
                Demo.save_nothing Demo.cluster_root_group
                Demo.scene_one_selected) as [_ [_ [D _]]].
    rewrite (D "hero_000:prefab" eq_refl). reflexivity.
  - destruct (save_requires_single_root
                Demo.save_nothing Demo.cluster_root_group
                Demo.scene_two_selected) as [_ [R _]].
    apply R. simpl. discriminate.
  - destruct (save_requires_single_root
                Demo.save_nothing Demo.cluster_root_group
                Demo.scene_cluster_selected) as [_ [_ [_ [_ D]]]].
    destruct (D "crowd" eq_refl) as [E _]. rewrite E.
    vm_compute. reflexivity.
  - destruct (save_requires_single_root
                Demo.save_nothing Demo.cluster_root_group
                Demo.empty_scene) as [_ [_ [_ [R _]]]].
    apply R. simpl. discriminate.
Defined.

(** C5, counterexample.  Exactly one transform is selected and it carries
    [isPrefabCluster], but it sits under the world: [cmds.parent(sel[0],
    world=True)] is refused, and [PrefabClusterItem.save] ends with the
    host's error, whatever the generic save routine is; that routine is
    not run. *)
Lemma cluster_at_world_is_not_saved :
  filter (attributeQuery_exists Demo.scene_cluster_at_world "isPrefabCluster")
         (ls_selected_transforms Demo.scene_cluster_at_world)
  = ["crowd"]
  /\ (forall MayaFileItem_save : host unit,
         prefabclusteritem.PrefabClusterItem_save
           MayaFileItem_save Demo.cluster_root_group
           Demo.scene_cluster_at_world
         = Raise (RuntimeError "Object is already a child of the world.")
                 Demo.scene_cluster_at_world).
Proof.
  split; [reflexivity |].
  intros MayaFileItem_save.
  apply (PrefabClusterItem_save_unparent_fails _ _ _ _ "crowd");
    reflexivity.
Qed.

(** ** Resolving the final namespace *)

Lemma get_cache_from_root_keeps (root_node cache : string) (s s' : scene) :
  prefabitem.get_cache_from_root root_node s = Ok cache s' -> s' = s.
Proof.
  unfold prefabitem.get_cache_from_root, bind, ask.
  destruct (attributeQuery_exists s "isPrefab" root_node); cbn [negb];
    [| discriminate].
  destruct (attributeQuery_exists s "usd_cycle_cache" root_node); cbn [negb];
    [| discriminate].
  destruct (listConnections s root_node "usd_cycle_cache") as [[|c cs]|];
    try discriminate.
  intros H. inversion H. reflexivity.
Qed.

Lemma get_cache_from_root_unlinked (root_node : string) (s : scene) :
  attributeQuery_exists s "isPrefab" root_node = true ->
  attributeQuery_exists s "usd_cycle_cache" root_node = false ->
  prefabitem.get_cache_from_root root_node s
  = Raise (ValueError ("The given node '" ++ root_node
                       ++ "' has no USD cache linked to it!")) s.
Proof.
  intros A B. unfold prefabitem.get_cache_from_root, bind, ask.
  cbv beta iota. rewrite A. cbn [negb]. rewrite B. reflexivity.
Qed.

Lemma resolve_namespace_no_cache (root_node : string) (s s' : scene)
  (e : exn) :
  prefabitem.get_cache_from_root root_node s = Raise e s' ->
  prefabitem.resolve_namespace root_node s = Raise e s'.
Proof.
  intros H. unfold prefabitem.resolve_namespace, bind. rewrite H. reflexivity.
Qed.

Lemma resolve_namespace_named (root_node cache base : string) (s : scene) :
  prefabitem.get_cache_from_root root_node s = Ok cache s ->
  Cmds.getAttr root_node prefabitem.PREFAB_NAME_ATTR s = Ok base s ->
  exists n,
    prefabitem.resolve_namespace root_node s = Ok (candidate base n) s
    /\ least_free (taken_in_table (namespaces s) base) n.
Proof.
  intros C G. destruct (get_namespace_from_root_least _ _ _ G) as [n [E L]].
  exists n. split; [| exact L].
  unfold prefabitem.resolve_namespace, bind. rewrite C, E, candidate_truthy.
  reflexivity.
Qed.

Lemma resolve_namespace_unnamed (root_node cache : string) (s : scene) :
  prefabitem.get_cache_from_root root_node s = Ok cache s ->
  attributeQuery_exists s prefabitem.PREFAB_NAME_ATTR root_node = false ->
  prefabitem.resolve_namespace root_node s
  = prefabitem.get_namespace_from_cache cache s.
Proof.
  intros C A. unfold prefabitem.resolve_namespace, bind.
  rewrite C, (get_namespace_from_root_absent _ _ A). reflexivity.
Qed.

Lemma load_fails_with_resolution (root_node : string) (s s' : scene)
  (e : exn) :
  prefabitem.resolve_namespace root_node s = Raise e s' ->
  prefabitem.PrefabItem_load_from_root root_node s = Raise e s'.
Proof.
  intros H. unfold prefabitem.PrefabItem_load_from_root, bind. rewrite H.
  reflexivity.
Qed.

(** C3, as amended.  The cache node is fetched before anything else: when
    that fails the resolution fails with the same exception, and it does
    fail with a [ValueError] for a prefab root that has no
    [usd_cycle_cache] attribute, whether or not the root records a name.
    Once the cache node is at hand, a root that records a name gets its
    namespace from that attribute, and a root without the attribute gets
    what [get_namespace_from_cache] derives from the cache node.  A failed
    resolution fails the load. *)
Theorem namespace_resolution_order (root_node : string) (s : scene) :
  (forall e s',
      prefabitem.get_cache_from_root root_node s = Raise e s' ->
      prefabitem.resolve_namespace root_node s = Raise e s')
  /\ (attributeQuery_exists s "isPrefab" root_node = true ->
      attributeQuery_exists s "usd_cycle_cache" root_node = false ->
      prefabitem.resolve_namespace root_node s
      = Raise (ValueError ("The given node '" ++ root_node
                           ++ "' has no USD cache linked to it!")) s)
  /\ (forall cache,
         prefabitem.get_cache_from_root root_node s = Ok cache s ->
         (forall base,
             Cmds.getAttr root_node prefabitem.PREFAB_NAME_ATTR s = Ok base s ->
             exists n,
               prefabitem.resolve_namespace root_node s
               = Ok (candidate base n) s
               /\ least_free (taken_in_table (namespaces s) base) n)
         /\ (attributeQuery_exists s prefabitem.PREFAB_NAME_ATTR root_node
             = false ->
             prefabitem.resolve_namespace root_node s
             = prefabitem.get_namespace_from_cache cache s))
  /\ (forall e s',
         prefabitem.resolve_namespace root_node s = Raise e s' ->
         prefabitem.PrefabItem_load_from_root root_node s = Raise e s').
Proof.
  split; [| split; [| split]].
  - intros e s'. apply resolve_namespace_no_cache.
  - intros A B. apply resolve_namespace_no_cache.
    now apply get_cache_from_root_unlinked.
  - intros cache C. split.
    + intros base. now apply (resolve_namespace_named _ cache).
    + now apply resolve_namespace_unnamed.
  - intros e s'. apply load_fails_with_resolution.
Qed.

Lemma namespace_resolution_order_witness :
  prefabitem.resolve_namespace "PREFAB_IMPORT_TEMP:prefab"
                               Demo.scene_two_heroes
  = Ok "hero_002" Demo.scene_two_heroes.
Proof.
  destruct (namespace_resolution_order "PREFAB_IMPORT_TEMP:prefab"
                                       Demo.scene_two_heroes)
    as [_ [_ [N _]]].
  destruct (N "PREFAB_IMPORT_TEMP:c027_shepherd_m00_tall_dancing_03" eq_refl)
    as [Named _].
  destruct (Named "hero" eq_refl) as [n [E L]].
  assert (N2 : n = 2).
  { apply (least_free_unique _ _ _ L). split; [reflexivity |].
    intros [|[|j]] Hj; [reflexivity | reflexivity | lia]. }
  subst n. exact E.
Defined.

(** C3, counterexample.  The stored root records the name [hero] but has no
    cache linked: the load does not resolve a namespace, it raises. *)
Lemma named_root_without_cache_fails :
  exists (new_nodes : list string) (s1 : scene),
    Cmds.import_fragment Demo.uncached_fragment prefabitem.IMPORT_NAMESPACE
                         Demo.empty_scene
    = Ok new_nodes s1
    /\ attributeQuery_exists s1 prefabitem.PREFAB_NAME_ATTR
                             "PREFAB_IMPORT_TEMP:prefab" = true
    /\ prefabitem.resolve_namespace "PREFAB_IMPORT_TEMP:prefab" s1
       = Raise (ValueError "The given node 'PREFAB_IMPORT_TEMP:prefab' has no USD cache linked to it!")
               s1
    /\ prefabitem.PrefabItem_load_imported
         (Cmds.import_fragment Demo.uncached_fragment) "mayafile.ma"
         Demo.empty_scene
       = Raise (ValueError "The given node 'PREFAB_IMPORT_TEMP:prefab' has no USD cache linked to it!")
               s1.
Proof.
  eexists. eexists. split; [reflexivity |]. repeat split; reflexivity.
Qed.

(** ** Loading twice *)

Lemma locate_root_keeps (marker msg root_node : string)
  (new_nodes : list string) (s s' : scene) :
  prefabitem.locate_root marker msg new_nodes s = Ok root_node s' -> s' = s.
Proof.
  unfold prefabitem.locate_root, bind, ask.
  destruct (prefabitem.scan_for_root marker s new_nodes) as [x|];
    [destruct (Py.truthy x) |]; intros H; inversion H; reflexivity.
Qed.

Lemma loads_via_returns (cmds_file_import : string -> host (list string))
  (transferPath_text : string) (s at_choice s' : scene)
  (root_node new_namespace : string) :
  loads_via cmds_file_import transferPath_text s root_node at_choice
            new_namespace s' ->
  prefabitem.PrefabItem_load_imported cmds_file_import transferPath_text s
  = Ok new_namespace s'.
Proof.
  intros [new_nodes [I [L F]]].
  unfold prefabitem.PrefabItem_load_imported, bind. rewrite I, L. exact F.
Qed.

Lemma load_returns_via (cmds_file_import : string -> host (list string))
  (transferPath_text : string) (s s' : scene) (new_namespace : string) :
  prefabitem.PrefabItem_load_imported cmds_file_import transferPath_text s
  = Ok new_namespace s' ->
  exists root_node at_choice,
    loads_via cmds_file_import transferPath_text s root_node at_choice
              new_namespace s'.
Proof.
  unfold prefabitem.PrefabItem_load_imported, bind at 1.
  destruct (cmds_file_import prefabitem.IMPORT_NAMESPACE s)
    as [new_nodes s1 | e s1 |] eqn:I; try discriminate.
  unfold bind at 1.
  destruct (prefabitem.locate_root _ _ new_nodes s1)
    as [root_node s2 | e s2 |] eqn:L; try discriminate.
  intros F. pose proof (locate_root_keeps _ _ _ _ _ _ L) as K. subst s2.
  exists root_node, s1, new_nodes. auto.
Qed.

Lemma get_namespace_from_cache_keeps (cacheNode ns : string) (s s' : scene) :
  prefabitem.get_namespace_from_cache cacheNode s = Ok ns s' -> s' = s.
Proof.
  unfold prefabitem.get_namespace_from_cache.
  destruct (prefabitem.parse_cache_name cacheNode) as [e | f];
    [discriminate |].
  destruct (prefabitem.cache_loop s f _ 0); [| discriminate].
  intros H. inversion H. reflexivity.
Qed.

Lemma resolve_namespace_keeps (root_node ns : string) (s s' : scene) :
  prefabitem.resolve_namespace root_node s = Ok ns s' -> s' = s.
Proof.
  unfold prefabitem.resolve_namespace, bind at 1.
  destruct (prefabitem.get_cache_from_root root_node s)
    as [cache s1 | e s1 |] eqn:C; try discriminate.
  apply get_cache_from_root_keeps in C. subst s1. unfold bind.
  destruct (get_namespace_from_root_returns root_node s)
    as [E | [[x E] | [msg E]]]; rewrite E; try discriminate.
  - apply get_namespace_from_cache_keeps.
  - destruct (Py.truthy x); [| apply get_namespace_from_cache_keeps].
    intros H. inversion H. reflexivity.
Qed.

Lemma resolve_namespace_named_fresh (root_node ns : string) (s s' : scene) :
  attributeQuery_exists s prefabitem.PREFAB_NAME_ATTR root_node = true ->
  prefabitem.resolve_namespace root_node s = Ok ns s' ->
  ~ In ns (namespaces s).
Proof.
  intros A R.
  destruct (prefabitem.get_cache_from_root root_node s)
    as [cache s1 | e s1 |] eqn:C.
  - pose proof (get_cache_from_root_keeps _ _ _ _ C) as K. subst s1.
    destruct (Cmds.getAttr root_node prefabitem.PREFAB_NAME_ATTR s)
      as [base s2 | e s2 |] eqn:G.
    + destruct (getAttr_exists _ _ _ _ _ G) as [_ ->].
      destruct (resolve_namespace_named _ _ _ _ C G) as [n [E L]].
      rewrite E in R. inversion R; subst.
      exact (least_free_table_not_in _ _ _ L).
    + exfalso. revert R.
      unfold prefabitem.resolve_namespace, bind at 1. rewrite C.
      unfold bind at 1, prefabitem.get_namespace_from_root, bind, ask.
      rewrite A. cbn [negb]. rewrite G. discriminate.
    + exfalso. revert R.
      unfold prefabitem.resolve_namespace, bind at 1. rewrite C.
      unfold bind at 1, prefabitem.get_namespace_from_root, bind, ask.
      rewrite A. cbn [negb]. rewrite G. discriminate.
  - rewrite (resolve_namespace_no_cache _ _ _ _ C) in R. discriminate.
  - exfalso. revert R. unfold prefabitem.resolve_namespace, bind.
    rewrite C. discriminate.
Qed.

Lemma swap_namespace_returns_inv (ns target : string) (s s' : scene) :
  prefabitem.swap_namespace ns target s = Ok tt s' ->
  namespace_exists s ns = true.
Proof.
  destruct (namespace_exists s ns) eqn:E; [reflexivity |].
  rewrite (swap_namespace_missing _ _ _ E). discriminate.
Qed.

Lemma group_prefab_keeps_namespaces (root_node group_name : string)
  (done : bool) (s s' : scene) :
  prefabitem.group_prefab root_node group_name s = Ok done s' ->
  namespaces s' = namespaces s.
Proof.
  rewrite group_prefab_unfold.
  assert (W : namespaces (with_group group_name s) = namespaces s).
  { unfold with_group. destruct (objExists s group_name); reflexivity. }
  unfold Cmds.parent.
  destruct (find_node _ root_node) as [c|];
    [destruct (find_node _ group_name) as [g|];
     [destruct (_ || _) |] |];
    intros H; inversion H; subst; exact W.
Qed.

Lemma load_from_root_inv (root_node ns : string) (s s' : scene) :
  prefabitem.PrefabItem_load_from_root root_node s = Ok ns s' ->
  prefabitem.resolve_namespace root_node s = Ok ns s
  /\ exists s4,
      prefabitem.swap_namespace prefabitem.IMPORT_NAMESPACE ns s = Ok tt s4
      /\ namespaces s' = namespaces s4.
Proof.
  unfold prefabitem.PrefabItem_load_from_root, bind at 1.
  destruct (prefabitem.resolve_namespace root_node s)
    as [ns1 s1 | e s1 |] eqn:R; try discriminate.
  pose proof (resolve_namespace_keeps _ _ _ _ R) as K. subst s1.
  unfold bind at 1.
  destruct (prefabitem.swap_namespace prefabitem.IMPORT_NAMESPACE ns1 s)
    as [[] s4 | e s4 |] eqn:W; try discriminate.
  unfold bind at 1.
  destruct (prefabitem.group_prefab _ "__Prefabs__" s4)
    as [done s5 | e s5 |] eqn:G; try discriminate.
  intros H. inversion H; subst.
  split; [reflexivity |]. exists s4. split; [exact W |].
  exact (group_prefab_keeps_namespaces _ _ _ _ _ G).
Qed.

Lemma load_from_root_named (root_node ns : string) (s s' : scene) :
  attributeQuery_exists s prefabitem.PREFAB_NAME_ATTR root_node = true ->
  prefabitem.PrefabItem_load_from_root root_node s = Ok ns s' ->
  ~ In ns (namespaces s) /\ In ns (namespaces s').
Proof.
  intros A F. destruct (load_from_root_inv _ _ _ _ F) as [R [s4 [W N]]].
  pose proof (resolve_namespace_named_fresh _ _ _ _ A R) as Fresh.
  split; [exact Fresh |].
  pose proof (swap_namespace_returns_inv _ _ _ _ W) as T.
  assert (D : prefabitem.IMPORT_NAMESPACE <> ns).
  { intros <-. apply Fresh. now apply contains_In. }
  rewrite (swap_namespace_ok _ _ _ T D) in W. inversion W; subst s4.
  rewrite N. apply contains_In. exact (swapped_has_target _ _ _ D).
Qed.

Lemma import_fragment_keeps_namespaces (fragment : list node) (ns : string)
  (new_nodes : list string) (s s' : scene) :
  Cmds.import_fragment fragment ns s = Ok new_nodes s' ->
  incl (namespaces s) (namespaces s').
Proof.
  unfold Cmds.import_fragment. intros H. inversion H; subst. cbn [namespaces].
  destruct (namespace_exists s ns); [apply incl_refl |].
  apply incl_appl, incl_refl.
Qed.

(** ** Further properties of the allocators *)

Lemma length_zeros (k : nat) : String.length (Py.zeros k) = k.
Proof. induction k as [|k IH]; simpl; [reflexivity | now rewrite IH]. Qed.

(** X1.  The instance suffix [{n:03d}] has at least three characters, reads
    back as the decimal number [n], and so differs for different instances,
    as do the candidate namespaces built from one base. *)
Theorem instance_suffix_round_trip (n m : nat) :
  3 <= String.length (Py.fmt_03d n)
  /\ (exists d, NilEmpty.uint_of_string (Py.fmt_03d n) = Some d
                /\ Nat.of_uint d = n)
  /\ (Py.fmt_03d n = Py.fmt_03d m <-> n = m)
  /\ (forall base, candidate base n = candidate base m <-> n = m).
Proof.
  split; [| split; [| split]].
  - unfold Py.fmt_03d, Py.zfill. rewrite length_append, length_zeros. lia.
  - apply fmt_03d_value.
  - split; [apply fmt_03d_inj | intros ->; reflexivity].
  - intros base. split; [apply candidate_inj | intros ->; reflexivity].
Qed.

Lemma first_free_bound (taken : nat -> bool) (fuel i n : nat) :
  first_free taken fuel i = Some n -> n < i + fuel.
Proof.
  revert i. induction fuel as [|fuel IH]; simpl; intros i H; [discriminate |].
  destruct (taken i).
  - apply IH in H. lia.
  - inversion H. lia.
Qed.

Lemma table_least_free_bounded (used : list string) (base : string) (n : nat) :
  least_free (taken_in_table used base) n -> n <= length used.
Proof.
  intros L. destruct (table_search_finds used base 0) as [k [E K]].
  rewrite (least_free_unique _ _ _ L K).
  apply first_free_bound in E. lia.
Qed.

Lemma node_least_free_bounded (s : scene) (base : string) (n : nat) :
  least_free (taken_by_node s base) n -> n <= length (nodes s).
Proof.
  intros L. destruct (node_search_finds s base 0) as [k [E K]].
  rewrite (least_free_unique _ _ _ L K).
  apply first_free_bound in E. lia.
Qed.

(** X2.  In every scene the instance number an allocator settles on is
    bounded by what it searches: at most the number of entries of the
    namespace table for [get_namespace_from_root], at most the number of
    nodes of the scene for [get_namespace_from_cache]. *)
Theorem allocator_instance_bounded (s : scene) :
  (forall root base,
      Cmds.getAttr root prefabitem.PREFAB_NAME_ATTR s = Ok base s ->
      exists n,
        prefabitem.get_namespace_from_root root s
        = Ok (Some (candidate base n)) s
        /\ n <= length (namespaces s))
  /\ (forall cacheNode f,
         prefabitem.parse_cache_name cacheNode = inr f ->
         exists n,
           prefabitem.get_namespace_from_cache cacheNode s
           = Ok (candidate (cache_base f) n) s
           /\ n <= length (nodes s)).
Proof.
  split.
  - intros root base G.
    destruct (get_namespace_from_root_least _ _ _ G) as [n [E L]].
    exists n. split; [exact E | exact (table_least_free_bounded _ _ _ L)].
  - intros cacheNode f P.
    destruct (get_namespace_from_cache_least _ _ s P) as [n [E L]].
    exists n. split; [exact E | exact (node_least_free_bounded _ _ _ L)].
Qed.

Lemma allocator_instance_bounded_witness :
  (exists n,
      prefabitem.get_namespace_from_root "PREFAB_IMPORT_TEMP:prefab"
                                         Demo.scene_two_heroes
      = Ok (Some (candidate "hero" n)) Demo.scene_two_heroes
      /\ n <= 3)
  /\ (exists n,
         prefabitem.get_namespace_from_cache Demo.shepherd_cache
                                             Demo.empty_scene
         = Ok (candidate Demo.shepherd_base n) Demo.empty_scene
         /\ n <= 0).
Proof.
  split.
  - exact (proj1 (allocator_instance_bounded Demo.scene_two_heroes)
                 "PREFAB_IMPORT_TEMP:prefab" "hero" eq_refl).
  - exact (proj2 (allocator_instance_bounded Demo.empty_scene)
                 Demo.shepherd_cache
                 (prefabitem.mkCacheName "c027" "shepherd" "m00" "tall"
                                         "dancing" "03") eq_refl).
Defined.

(** X3.  Instance numbers only go up: when a root recording the same base
    name is allocated again in a scene whose namespace table has kept every
    entry and holds the namespace allocated before, the new instance number
    is strictly larger. *)
Theorem successive_allocations_increase
  (s s' : scene) (root root' base : string) (n1 : nat) :
  prefabitem.get_namespace_from_root root s
  = Ok (Some (candidate base n1)) s ->
  Cmds.getAttr root prefabitem.PREFAB_NAME_ATTR s = Ok base s ->
  Cmds.getAttr root' prefabitem.PREFAB_NAME_ATTR s' = Ok base s' ->
  incl (namespaces s) (namespaces s') ->
  In (candidate base n1) (namespaces s') ->
  exists n2,
    prefabitem.get_namespace_from_root root' s'
    = Ok (Some (candidate base n2)) s'
    /\ n1 < n2.
Proof.
  intros R G G' Inc Held.
  destruct (get_namespace_from_root_least _ _ _ G) as [k [E [_ Below]]].
  rewrite E in R. inversion R as [C]. apply candidate_inj in C. subst k.
  destruct (get_namespace_from_root_least _ _ _ G') as [n2 [E' [Free _]]].
  exists n2. split; [exact E' |].
  destruct (Nat.lt_ge_cases n1 n2) as [Lt | Ge]; [exact Lt | exfalso].
  assert (T : taken_in_table (namespaces s') base n2 = true).
  { apply contains_In.
    destruct (Nat.eq_dec n2 n1) as [-> | D]; [exact Held |].
    apply Inc, contains_In. apply Below. lia. }
  congruence.
Qed.

Lemma successive_allocations_increase_witness :
  exists n2,
    prefabitem.get_namespace_from_root
      "PREFAB_IMPORT_TEMP:prefab"
      (Demo.imported Demo.hero_fragment Demo.hero_once)
    = Ok (Some (candidate "hero" n2))
         (Demo.imported Demo.hero_fragment Demo.hero_once)
    /\ 0 < n2.
Proof.
  apply (successive_allocations_increase
           (Demo.imported Demo.hero_fragment Demo.empty_scene)
           (Demo.imported Demo.hero_fragment Demo.hero_once)
           "PREFAB_IMPORT_TEMP:prefab" "PREFAB_IMPORT_TEMP:prefab" "hero" 0).
  - vm_compute. reflexivity.
  - vm_compute. reflexivity.
  - vm_compute. reflexivity.
  - intros x H. vm_compute in H. vm_compute. tauto.
  - vm_compute. left. reflexivity.
Defined.

Lemma get_cache_from_root_outcome (root_node : string) (s : scene) :
  (exists cache, prefabitem.get_cache_from_root root_node s = Ok cache s)
  \/ (exists e, prefabitem.get_cache_from_root root_node s = Raise e s).
Proof.
  unfold prefabitem.get_cache_from_root, bind, ask.
  destruct (attributeQuery_exists s "isPrefab" root_node); cbn [negb];
    [| right; eexists; reflexivity].
  destruct (attributeQuery_exists s "usd_cycle_cache" root_node); cbn [negb];
    [| right; eexists; reflexivity].
  destruct (listConnections s root_node "usd_cycle_cache") as [[|c cs]|];
    [right | left | right]; eexists; reflexivity.
Qed.

Lemma get_namespace_from_cache_outcome (cacheNode : string) (s : scene) :
  (exists ns, prefabitem.get_namespace_from_cache cacheNode s = Ok ns s)
  \/ (exists e, prefabitem.get_namespace_from_cache cacheNode s = Raise e s).
Proof.
  destruct (prefabitem.parse_cache_name cacheNode) as [e | f] eqn:P.
  - right. exists e. unfold prefabitem.get_namespace_from_cache.
    rewrite P. reflexivity.
  - left. destruct (get_namespace_from_cache_least _ _ s P) as [n [E _]].
    eauto.
Qed.

Lemma resolve_namespace_outcome (root_node : string) (s : scene) :
  (exists ns, prefabitem.resolve_namespace root_node s = Ok ns s)
  \/ (exists e, prefabitem.resolve_namespace root_node s = Raise e s).
Proof.
  unfold prefabitem.resolve_namespace, bind.
  destruct (get_cache_from_root_outcome root_node s) as [[cache E] | [e E]];
    rewrite E; [| right; eauto].
  destruct (get_namespace_from_root_returns root_node s)
    as [R | [[ns R] | [msg R]]]; rewrite R.
  - apply get_namespace_from_cache_outcome.
  - destruct (Py.truthy ns); [left; eexists; reflexivity |].
    apply get_namespace_from_cache_outcome.
  - right. eauto.
Qed.

(** ** What grouping and loading leave behind *)

Lemma find_node_name (s : scene) (name : string) (n : node) :
  find_node s name = Some n -> node_name n = name.
Proof.
  unfold find_node. intros H. apply find_some in H.
  now apply String.eqb_eq.
Qed.

Lemma with_group_refs (group_name : string) (s : scene) :
  map node_ref (nodes (with_group group_name s))
  = map node_ref (nodes s)
    ++ (if objExists s group_name then [] else [("", group_name)]).
Proof.
  unfold with_group. destruct (objExists s group_name).
  - now rewrite app_nil_r.
  - unfold Cmds.with_nodes. cbn [nodes]. now rewrite map_app.
Qed.

Lemma set_parent_refs (child : string) (p : option ref) (l : list node) :
  map node_ref (map (Cmds.set_parent child p) l) = map node_ref l.
Proof.
  induction l as [|n l IH]; cbn [map]; [reflexivity |].
  rewrite IH. f_equal. unfold Cmds.set_parent.
  destruct (String.eqb (node_name n) child); reflexivity.
Qed.

Lemma group_prefab_refs (root_node group_name : string) (done : bool)
  (s s' : scene) :
  prefabitem.group_prefab root_node group_name s = Ok done s' ->
  map node_ref (nodes s')
  = map node_ref (nodes s)
    ++ (if objExists s group_name then [] else [("", group_name)])
  /\ namespaces s' = namespaces s
  /\ selection s' = selection s.
Proof.
  intros H. pose proof (group_prefab_keeps_namespaces _ _ _ _ _ H) as N.
  revert H. rewrite group_prefab_unfold, <- with_group_refs.
  assert (W : selection (with_group group_name s) = selection s).
  { unfold with_group. destruct (objExists s group_name); reflexivity. }
  unfold Cmds.parent.
  destruct (find_node _ root_node) as [c|];
    [destruct (find_node _ group_name) as [g|];
     [destruct (_ || _) |] |];
    intros H; inversion H; subst; repeat split; try assumption.
  unfold Cmds.with_nodes. cbn [nodes]. apply set_parent_refs.
Qed.

Lemma locate_root_inv (marker msg root_node : string)
  (new_nodes : list string) (s s' : scene) :
  prefabitem.locate_root marker msg new_nodes s = Ok root_node s' ->
  s' = s /\ find (is_root marker s) new_nodes = Some root_node.
Proof.
  unfold prefabitem.locate_root, bind, ask. rewrite scan_for_root_find.
  destruct (find (is_root marker s) new_nodes) as [x|];
    [destruct (Py.truthy x) |]; intros H; inversion H; subst; now split.
Qed.

Lemma resolve_namespace_raise_keeps (root_node : string) (e : exn)
  (s s' : scene) :
  prefabitem.resolve_namespace root_node s = Raise e s' -> s' = s.
Proof.
  destruct (resolve_namespace_outcome root_node s) as [[ns E] | [e0 E]];
    rewrite E; intros H; inversion H; reflexivity.
Qed.

Lemma load_imported_unfold
  (cmds_file_import : string -> host (list string))
  (transferPath_text : string) (s s1 : scene) (new_nodes : list string)
  (root_node : string) :
  cmds_file_import prefabitem.IMPORT_NAMESPACE s = Ok new_nodes s1 ->
  prefabitem.locate_root "isPrefab"
    (prefabitem.root_not_found_msg transferPath_text) new_nodes s1
  = Ok root_node s1 ->
  prefabitem.PrefabItem_load_imported cmds_file_import transferPath_text s
  = prefabitem.PrefabItem_load_from_root root_node s1.
Proof.
  intros I L. unfold prefabitem.PrefabItem_load_imported, bind.
  rewrite I, L. reflexivity.
Qed.

Lemma get_cache_from_root_unconnected (root_node : string) (s : scene) :
  attributeQuery_exists s "isPrefab" root_node = true ->
  attributeQuery_exists s "usd_cycle_cache" root_node = true ->
  listConnections s root_node "usd_cycle_cache" = None ->
  prefabitem.get_cache_from_root root_node s
  = Raise (TypeError "'NoneType' object is not subscriptable") s.
Proof.
  intros A B C. unfold prefabitem.get_cache_from_root, bind, ask.
  cbv beta iota. rewrite A. cbn [negb]. rewrite B. cbn [negb]. rewrite C.
  reflexivity.
Qed.

(** X6.  A load whose namespace resolution fails stops there with that
    exception and rolls nothing back: the scene is left exactly as the
    import made it.  This is what happens, with a [ValueError], when the
    located root has no [usd_cycle_cache] attribute, and, with a
    [TypeError], when the attribute is there with nothing connected. *)
Theorem failed_resolution_leaves_import
  (cmds_file_import : string -> host (list string))
  (transferPath_text : string) (s s1 : scene) (new_nodes : list string)
  (root_node : string) :
  cmds_file_import prefabitem.IMPORT_NAMESPACE s = Ok new_nodes s1 ->
  prefabitem.locate_root "isPrefab"
    (prefabitem.root_not_found_msg transferPath_text) new_nodes s1
  = Ok root_node s1 ->
  (forall e s',
      prefabitem.resolve_namespace root_node s1 = Raise e s' ->
      s' = s1
      /\ prefabitem.PrefabItem_load_imported cmds_file_import
                                             transferPath_text s
         = Raise e s1)
  /\ (attributeQuery_exists s1 "usd_cycle_cache" root_node = false ->
      prefabitem.PrefabItem_load_imported cmds_file_import transferPath_text s
      = Raise (ValueError ("The given node '" ++ root_node
                           ++ "' has no USD cache linked to it!")) s1)
  /\ (attributeQuery_exists s1 "usd_cycle_cache" root_node = true ->
      listConnections s1 root_node "usd_cycle_cache" = None ->
      prefabitem.PrefabItem_load_imported cmds_file_import transferPath_text s
      = Raise (TypeError "'NoneType' object is not subscriptable") s1).
Proof.
  intros I L. rewrite (load_imported_unfold _ _ _ _ _ _ I L).
  destruct (locate_root_inv _ _ _ _ _ _ L) as [_ F].
  apply find_some in F. destruct F as [_ F]. unfold is_root in F.
  apply andb_true_iff in F. destruct F as [_ A].
  split; [| split].
  - intros e s' R. pose proof (resolve_namespace_raise_keeps _ _ _ _ R).
    subst s'. split; [reflexivity |].
    now apply load_fails_with_resolution.
  - intros B. apply load_fails_with_resolution, resolve_namespace_no_cache.
    now apply get_cache_from_root_unlinked.
  - intros B C. apply load_fails_with_resolution, resolve_namespace_no_cache.
    now apply get_cache_from_root_unconnected.
Qed.

Lemma failed_resolution_leaves_import_witness :
  Demo.load_prefab Demo.unlinked_fragment Demo.empty_scene
  = Raise (TypeError "'NoneType' object is not subscriptable")
          (Demo.imported Demo.unlinked_fragment Demo.empty_scene).
Proof.
  assert (I : Cmds.import_fragment Demo.unlinked_fragment
                prefabitem.IMPORT_NAMESPACE Demo.empty_scene
              = Ok ["PREFAB_IMPORT_TEMP:prefab"]
                   (Demo.imported Demo.unlinked_fragment Demo.empty_scene))
    by (vm_compute; reflexivity).
  assert (L : prefabitem.locate_root "isPrefab"
                (prefabitem.root_not_found_msg "mayafile.ma")
                ["PREFAB_IMPORT_TEMP:prefab"]
                (Demo.imported Demo.unlinked_fragment Demo.empty_scene)
              = Ok "PREFAB_IMPORT_TEMP:prefab"
                   (Demo.imported Demo.unlinked_fragment Demo.empty_scene))
    by (vm_compute; reflexivity).
  destruct (failed_resolution_leaves_import _ _ _ _ _ _ I L) as [_ [_ T]].
  apply T; vm_compute; reflexivity.
Defined.

Lemma swap_namespace_returns_swapped (ns target : string) (s s' : scene) :
  prefabitem.swap_namespace ns target s = Ok tt s' ->
  s' = swapped ns target s
  /\ existsb (fun n => String.eqb (node_ns n) ns) (nodes s') = false.
Proof.
  unfold prefabitem.swap_namespace, bind at 1, ask at 1.
  destruct (namespace_exists s ns) eqn:E; cbn [negb]; [| discriminate].
  unfold bind at 1, ask at 1. unfold swapped.
  destruct (namespace_exists s target) eqn:T; cbn [negb].
  - unfold bind at 1, ret at 1. unfold bind, Cmds.namespace_mv.
    rewrite E, T. cbn [andb]. unfold Cmds.namespace_rm.
    destruct (negb _); [discriminate |].
    destruct (existsb _ _) eqn:X; [discriminate |].
    intros H. inversion H; subst. split; [reflexivity | exact X].
  - unfold bind at 1, Cmds.namespace_add. rewrite T.
    unfold bind, Cmds.namespace_mv.
    destruct (_ && _); [| discriminate].
    unfold Cmds.namespace_rm.
    destruct (negb _); [discriminate |].
    destruct (existsb _ _) eqn:X; [discriminate |].
    intros H. inversion H; subst. split; [reflexivity | exact X].
Qed.

Lemma rehome_node_ref (ns target : string) (n : node) :
  node_ref (Cmds.rehome_node ns target n) = Cmds.rehome ns target (node_ref n).
Proof.
  unfold Cmds.rehome_node, Cmds.rehome, node_ref. simpl.
  destruct (String.eqb (node_ns n) ns); reflexivity.
Qed.

Lemma load_from_root_steps (root_node ns : string) (s s' : scene) :
  prefabitem.PrefabItem_load_from_root root_node s = Ok ns s' ->
  prefabitem.resolve_namespace root_node s = Ok ns s
  /\ exists s4 done,
      prefabitem.swap_namespace prefabitem.IMPORT_NAMESPACE ns s = Ok tt s4
      /\ prefabitem.group_prefab
           (Py.replace prefabitem.IMPORT_NAMESPACE ns root_node)
           "__Prefabs__" s4
         = Ok done s'.
Proof.
  unfold prefabitem.PrefabItem_load_from_root, bind at 1.
  destruct (prefabitem.resolve_namespace root_node s)
    as [ns1 s1 | e s1 |] eqn:R; try discriminate.
  pose proof (resolve_namespace_keeps _ _ _ _ R) as K. subst s1.
  unfold bind at 1.
  destruct (prefabitem.swap_namespace prefabitem.IMPORT_NAMESPACE ns1 s)
    as [[] s4 | e s4 |] eqn:W; try discriminate.
  unfold bind at 1.
  destruct (prefabitem.group_prefab _ "__Prefabs__" s4)
    as [done s5 | e s5 |] eqn:G; try discriminate.
  intros H. inversion H; subst.
  split; [reflexivity |]. exists s4, done. split; assumption.
Qed.

(** ** The chosen namespace *)

Lemma resolve_namespace_candidate (root_node ns : string) (s s' : scene) :
  prefabitem.resolve_namespace root_node s = Ok ns s' ->
  exists base n, ns = candidate base n.
Proof.
  unfold prefabitem.resolve_namespace, bind at 1.
  destruct (prefabitem.get_cache_from_root root_node s)
    as [cache s1 | e s1 |] eqn:C; try discriminate.
  apply get_cache_from_root_keeps in C. subst s1.
  assert (FromCache : forall x y,
             prefabitem.get_namespace_from_cache cache s = Ok x y ->
             exists base n, x = candidate base n).
  { intros x y. unfold prefabitem.get_namespace_from_cache.
    destruct (prefabitem.parse_cache_name cache) as [e | f] eqn:P;
      [discriminate |].
    destruct (get_namespace_from_cache_least _ _ s P) as [n [E _]].
    unfold prefabitem.get_namespace_from_cache in E. rewrite P in E.
    rewrite E. intros H. inversion H. eauto. }
  unfold bind.
  destruct (Cmds.getAttr root_node prefabitem.PREFAB_NAME_ATTR s)
    as [base s2 | e s2 |] eqn:G.
  - destruct (getAttr_exists _ _ _ _ _ G) as [_ ->].
    destruct (get_namespace_from_root_least _ _ _ G) as [n [E _]].
    rewrite E, candidate_truthy. intros H. inversion H. eauto.
  - destruct (get_namespace_from_root_returns root_node s)
      as [R | [[x R] | [msg R]]]; rewrite R; try discriminate;
      [apply FromCache |].
    destruct (Py.truthy x) eqn:X; [| apply FromCache].
    exfalso. revert R.
    unfold prefabitem.get_namespace_from_root, bind, ask.
    destruct (attributeQuery_exists s prefabitem.PREFAB_NAME_ATTR root_node);
      cbn [negb]; [rewrite G |]; discriminate.
  - unfold Cmds.getAttr in G.
    destruct (find_node s root_node) as [k|];
      [destruct (find_attr (node_attrs k) prefabitem.PREFAB_NAME_ATTR)
         as [[[|]|v|cs]|] |];
      discriminate G.
Qed.

Lemma candidate_nonempty (base : string) (n : nat) :
  String.eqb (candidate base n) "" = false.
Proof.
  pose proof (candidate_truthy base n) as T.
  destruct (candidate base n); [discriminate | reflexivity].
Qed.

Lemma import_namespace_tails (p x : string) :
  (p ++ x)%string = prefabitem.IMPORT_NAMESPACE ->
  In x ["PREFAB_IMPORT_TEMP";
        "REFAB_IMPORT_TEMP";
        "EFAB_IMPORT_TEMP";
        "FAB_IMPORT_TEMP";
        "AB_IMPORT_TEMP";
        "B_IMPORT_TEMP";
        "_IMPORT_TEMP";
        "IMPORT_TEMP";
        "MPORT_TEMP";
        "PORT_TEMP";
        "ORT_TEMP";
        "RT_TEMP";
        "T_TEMP";
        "_TEMP";
        "TEMP";
        "EMP";
        "MP";
        "P";
        ""].
Proof.
  unfold prefabitem.IMPORT_NAMESPACE. intros H.
  do 18 (destruct p as [|? p];
         [simpl in H; subst x; repeat (first [left; reflexivity | right])
         | simpl in H; injection H as _ H]).
  destruct p as [|? p]; [| discriminate H].
  simpl in H. subst x. repeat (first [left; reflexivity | right]).
Qed.

Lemma candidate_not_import (base : string) (n : nat) :
  candidate base n <> prefabitem.IMPORT_NAMESPACE.
Proof.
  unfold candidate. intros H.
  assert (H' : ((base ++ "_") ++ Py.fmt_03d n)%string
               = prefabitem.IMPORT_NAMESPACE).
  { rewrite <- H. clear H. induction base as [|c base IH];
      [reflexivity | simpl; now rewrite IH]. }
  apply import_namespace_tails in H'.
  destruct (fmt_03d_value n) as [d [E _]].
  assert (L : 3 <= String.length (Py.fmt_03d n)).
  { unfold Py.fmt_03d, Py.zfill. rewrite length_append, length_zeros. lia. }
  revert E L. generalize (Py.fmt_03d n) H'. clear. intros x I E L.
  repeat (destruct I as [I | I];
          [subst x; first [vm_compute in E; discriminate E
                          | simpl in L; lia] |]).
  destruct I.
Qed.

Lemma load_from_root_chosen_exists (root_node ns : string) (s s' : scene) :
  prefabitem.PrefabItem_load_from_root root_node s = Ok ns s' ->
  namespace_exists s' ns = true.
Proof.
  intros H. destruct (load_from_root_steps _ _ _ _ H) as [R [s4 [done [W G]]]].
  destruct (resolve_namespace_candidate _ _ _ _ R) as [base [k ->]].
  destruct (swap_namespace_returns_swapped _ _ _ _ W) as [E4 _].
  unfold namespace_exists.
  rewrite (group_prefab_keeps_namespaces _ _ _ _ _ G), E4.
  apply swapped_has_target. intros C. symmetry in C.
  exact (candidate_not_import _ _ C).
Qed.

Lemma load_from_root_unnamed (root_node ns : string) (s s' : scene) :
  attributeQuery_exists s prefabitem.PREFAB_NAME_ATTR root_node = false ->
  prefabitem.PrefabItem_load_from_root root_node s = Ok ns s' ->
  exists f n,
    ns = candidate (cache_base f) n
    /\ least_free (taken_by_node s (cache_base f)) n.
Proof.
  intros A H. destruct (load_from_root_steps _ _ _ _ H) as [R _].
  destruct (get_cache_from_root_outcome root_node s) as [[cache C] | [e C]].
  - rewrite (resolve_namespace_unnamed _ _ _ C A) in R.
    destruct (prefabitem.parse_cache_name cache) as [e | f] eqn:P.
    + unfold prefabitem.get_namespace_from_cache in R. rewrite P in R.
      discriminate.
    + destruct (get_namespace_from_cache_least _ _ s P) as [n [E L]].
      rewrite E in R. inversion R. eauto.
  - rewrite (resolve_namespace_no_cache _ _ _ _ C) in R. discriminate.
Qed.

Lemma objExists_refs (s : scene) (name : string) :
  objExists s name = true <-> In name (map full_name (map node_ref (nodes s))).
Proof. rewrite map_map. apply objExists_In. Qed.

Lemma import_full_name (short : string) :
  full_name (prefabitem.IMPORT_NAMESPACE, short)
  = (prefabitem.IMPORT_NAMESPACE ++ ":" ++ short)%string.
Proof. reflexivity. Qed.

Lemma loaded_root_exists (short ns : string) (r : node) (s s' : scene) :
  find_node s (prefabitem.IMPORT_NAMESPACE ++ ":" ++ short)%string = Some r ->
  node_ns r = prefabitem.IMPORT_NAMESPACE ->
  prefabitem.PrefabItem_load_from_root
    (prefabitem.IMPORT_NAMESPACE ++ ":" ++ short)%string s
  = Ok ns s' ->
  objExists s' (ns ++ ":" ++ short)%string = true.
Proof.
  intros F Ns H.
  destruct (load_from_root_steps _ _ _ _ H) as [R [s4 [done [W G]]]].
  destruct (resolve_namespace_candidate _ _ _ _ R) as [base [k ->]].
  destruct (swap_namespace_returns_swapped _ _ _ _ W) as [E4 _].
  assert (Short : node_short r = short).
  { pose proof (find_node_name _ _ _ F) as Nm.
    unfold node_name, node_ref in Nm. rewrite Ns, import_full_name in Nm.
    apply append_inj_prefix in Nm. now inversion Nm. }
  destruct (group_prefab_refs _ _ _ _ _ G) as [Refs _].
  apply objExists_refs. rewrite Refs, map_app. apply in_or_app. left.
  rewrite E4. unfold swapped. cbn [nodes]. rewrite !map_map.
  apply in_map_iff. exists r. split.
  - rewrite rehome_node_ref. unfold Cmds.rehome, node_ref.
    cbn [fst snd]. rewrite Ns, String.eqb_refl. unfold full_name.
    cbn [fst snd]. rewrite candidate_nonempty, Short. reflexivity.
  - unfold find_node in F. apply find_some in F. exact (proj1 F).
Qed.



(** ** Loading twice: the chosen namespaces *)

(** C2, as amended.  Take a load of a prefab that returns.  The namespace it
    chooses is in the namespace table when the load is over.  If the
    imported root records a name, the chosen namespace is not in the table
    at the moment of choice.  If it records none, the chosen namespace is
    [base_NNN] for the base of the linked cache node and the least [NNN]
    for which no node [base_NNN:prefab] exists at the moment of choice;
    that namespace may well be in the table.  If the root is called
    [prefab], the node [namespace:prefab] exists when the load is over.
    Hence a second load, started from the scene the first one left, chooses
    a different namespace in two cases: its root records a name and its
    import removes no namespace; or its root records none, the first root
    was called [prefab] and its import removes no node.  Nothing is said
    about clusters. *)
Theorem load_chooses_fresh_namespace
  (cmds_file_import : string -> host (list string))
  (transferPath_text : string) (s at_choice s' : scene)
  (root_node new_namespace : string) :
  loads_via cmds_file_import transferPath_text s root_node at_choice
            new_namespace s' ->
  prefabitem.PrefabItem_load_imported cmds_file_import transferPath_text s
  = Ok new_namespace s'
  /\ In new_namespace (namespaces s')
  /\ (attributeQuery_exists at_choice prefabitem.PREFAB_NAME_ATTR root_node
      = true ->
      ~ In new_namespace (namespaces at_choice))
  /\ (attributeQuery_exists at_choice prefabitem.PREFAB_NAME_ATTR root_node
      = false ->
      exists f n,
        new_namespace = candidate (cache_base f) n
        /\ least_free (taken_by_node at_choice (cache_base f)) n
        /\ objExists at_choice
                     (new_namespace ++ ":" ++ prefabitem.rig_name)%string
           = false)
  /\ (forall r,
         find_node at_choice root_node = Some r ->
         node_ns r = prefabitem.IMPORT_NAMESPACE ->
         node_short r = prefabitem.rig_name ->
         objExists s' (new_namespace ++ ":" ++ prefabitem.rig_name)%string
         = true)
  /\ (forall (root_node2 namespace2 : string) (at_choice2 s2 : scene),
         loads_via cmds_file_import transferPath_text s' root_node2
                   at_choice2 namespace2 s2 ->
         (attributeQuery_exists at_choice2 prefabitem.PREFAB_NAME_ATTR
                                root_node2 = true
          /\ incl (namespaces s') (namespaces at_choice2))
         \/ (attributeQuery_exists at_choice2 prefabitem.PREFAB_NAME_ATTR
                                   root_node2 = false
             /\ (exists r,
                    find_node at_choice root_node = Some r
                    /\ node_ns r = prefabitem.IMPORT_NAMESPACE
                    /\ node_short r = prefabitem.rig_name)
             /\ (forall name,
                    objExists s' name = true ->
                    objExists at_choice2 name = true)) ->
         namespace2 <> new_namespace).
Proof.
  intros V.
  pose proof (loads_via_returns _ _ _ _ _ _ _ V) as R.
  destruct V as [new_nodes [I [L F]]].
  assert (Present : In new_namespace (namespaces s')).
  { apply contains_In. exact (load_from_root_chosen_exists _ _ _ _ F). }
  assert (Root : forall r,
             find_node at_choice root_node = Some r ->
             node_ns r = prefabitem.IMPORT_NAMESPACE ->
             node_short r = prefabitem.rig_name ->
             objExists s' (new_namespace ++ ":" ++ prefabitem.rig_name)%string
             = true).
  { intros r Fr Ns Sh.
    assert (Nm : root_node = (prefabitem.IMPORT_NAMESPACE ++ ":"
                              ++ prefabitem.rig_name)%string).
    { rewrite <- (find_node_name _ _ _ Fr). unfold node_name, node_ref.
      rewrite Ns, Sh. reflexivity. }
    subst root_node. exact (loaded_root_exists _ _ _ _ _ Fr Ns F). }
  split; [exact R |]. split; [exact Present |].
  split; [| split; [| split; [exact Root |]]].
  - intros A. exact (proj1 (load_from_root_named _ _ _ _ A F)).
  - intros A. destruct (load_from_root_unnamed _ _ _ _ A F) as [f [n [E Lf]]].
    exists f, n. split; [exact E |]. split; [exact Lf |].
    rewrite E. exact (proj1 Lf).
  - intros root_node2 namespace2 at_choice2 s2 [nodes2 [I2 [L2 F2]]] Cases E.
    destruct Cases as [[A2 Inc] | [A2 [[r [Fr [Ns Sh]]] Keeps]]].
    + destruct (load_from_root_named _ _ _ _ A2 F2) as [Fresh2 _].
      apply Fresh2, Inc. rewrite E. exact Present.
    + destruct (load_from_root_unnamed _ _ _ _ A2 F2) as [f [n [E2 Lf]]].
      pose proof (proj1 Lf) as Free. unfold taken_by_node in Free.
      rewrite <- E2, E, (Keeps _ (Root r Fr Ns Sh)) in Free.
      discriminate Free.
Qed.

Lemma load_chooses_fresh_namespace_witness :
  (Demo.load_prefab Demo.hero_fragment Demo.empty_scene
   = Ok "hero_000" Demo.hero_once
   /\ Demo.load_prefab Demo.hero_fragment Demo.hero_once
      = Ok "hero_001" Demo.hero_twice)
  /\ (Demo.load_prefab Demo.plain_fragment Demo.empty_scene
      = Ok "c027_shepherd_m00_tall_dancing_000" Demo.plain_once
      /\ Demo.load_prefab Demo.plain_fragment Demo.plain_once
         = Ok "c027_shepherd_m00_tall_dancing_001" Demo.plain_twice).
Proof.
  assert (V1 : loads_via (Cmds.import_fragment Demo.hero_fragment)
                 "mayafile.ma" Demo.empty_scene "PREFAB_IMPORT_TEMP:prefab"
                 (Demo.imported Demo.hero_fragment Demo.empty_scene)
                 "hero_000" Demo.hero_once).
  { exists ["PREFAB_IMPORT_TEMP:prefab";
            "PREFAB_IMPORT_TEMP:c027_shepherd_m00_tall_dancing_03"].
    repeat split; vm_compute; reflexivity. }
  assert (V2 : loads_via (Cmds.import_fragment Demo.hero_fragment)
                 "mayafile.ma" Demo.hero_once "PREFAB_IMPORT_TEMP:prefab"
                 (Demo.imported Demo.hero_fragment Demo.hero_once)
                 "hero_001" Demo.hero_twice).
  { exists ["PREFAB_IMPORT_TEMP:prefab";
            "PREFAB_IMPORT_TEMP:c027_shepherd_m00_tall_dancing_03"].
    repeat split; vm_compute; reflexivity. }
  assert (V3 : loads_via (Cmds.import_fragment Demo.plain_fragment)
                 "mayafile.ma" Demo.empty_scene "PREFAB_IMPORT_TEMP:prefab"
                 (Demo.imported Demo.plain_fragment Demo.empty_scene)
                 "c027_shepherd_m00_tall_dancing_000" Demo.plain_once).
  { exists ["PREFAB_IMPORT_TEMP:prefab";
            "PREFAB_IMPORT_TEMP:c027_shepherd_m00_tall_dancing_03"].
    repeat split; vm_compute; reflexivity. }
  assert (V4 : loads_via (Cmds.import_fragment Demo.plain_fragment)
                 "mayafile.ma" Demo.plain_once "PREFAB_IMPORT_TEMP:prefab"
                 (Demo.imported Demo.plain_fragment Demo.plain_once)
                 "c027_shepherd_m00_tall_dancing_001" Demo.plain_twice).
  { exists ["PREFAB_IMPORT_TEMP:prefab";
            "PREFAB_IMPORT_TEMP:c027_shepherd_m00_tall_dancing_03"].
    repeat split; vm_compute; reflexivity. }
  split; split.
  - exact (proj1 (load_chooses_fresh_namespace _ _ _ _ _ _ _ V1)).
  - exact (proj1 (load_chooses_fresh_namespace _ _ _ _ _ _ _ V2)).
  - exact (proj1 (load_chooses_fresh_namespace _ _ _ _ _ _ _ V3)).
  - exact (proj1 (load_chooses_fresh_namespace _ _ _ _ _ _ _ V4)).
Defined.

(** C2, counterexample.  The stored root records no name and is not called
    [prefab]: loaded twice, the item gets the same namespace both times,
    and at the second choice that namespace is already in the scene. *)
Lemma unnamed_prefab_loaded_twice_collides :
  Demo.load_prefab Demo.unnamed_fragment Demo.empty_scene
  = Ok "c027_shepherd_m00_tall_dancing_000" Demo.unnamed_once
  /\ In "c027_shepherd_m00_tall_dancing_000"
        (namespaces (Demo.imported Demo.unnamed_fragment Demo.unnamed_once))
  /\ Demo.load_prefab Demo.unnamed_fragment Demo.unnamed_once
     = Ok "c027_shepherd_m00_tall_dancing_000" Demo.unnamed_twice.
Proof.
  split; [vm_compute; reflexivity |].
  split; [vm_compute; left; reflexivity |].
  vm_compute; reflexivity.
Qed.

(** The cluster's namespace is computed from the root's own name only:
    [len(duplicate_cluster)] is the length of that name, the nodes found by
    [cmds.ls] play no part. *)
Lemma cluster_namespace_ignores_scene (root_node : string)
  (found found' : list string) :
  prefabclusteritem.cluster_namespace root_node found
  = prefabclusteritem.cluster_namespace root_node found'.
Proof. reflexivity. Qed.

(** A stored cluster loaded twice gets the namespace [crowd_5] both times. *)
Lemma cluster_loaded_twice_collides :
  Demo.load_cluster Demo.crowd_fragment Demo.scene_with_cluster_group
  = Ok "crowd_5" Demo.crowd_once
  /\ In "crowd_5"
        (namespaces Demo.crowd_once)
  /\ Demo.load_cluster Demo.crowd_fragment Demo.crowd_once
     = Ok "crowd_5" Demo.crowd_twice.
Proof.
  split; [vm_compute; reflexivity |].
  split; [vm_compute; left; reflexivity |].
  vm_compute; reflexivity.
Qed.

(** ** Loading a cluster *)

Lemma cluster_load_from_root_namespace
  (ROOT_GROUP : string) (rigFn_is_prefab : string -> host bool)
  (root_node ns : string) (s s' : scene) :
  prefabclusteritem.PrefabClusterItem_load_from_root
    ROOT_GROUP rigFn_is_prefab root_node s = Ok ns s' ->
  ns = prefabclusteritem.cluster_namespace root_node [].
Proof.
  unfold prefabclusteritem.PrefabClusterItem_load_from_root.
  unfold bind at 1, ask at 1. unfold bind at 1.
  destruct (match listRelatives_children s root_node with
            | Some cs => filterM rigFn_is_prefab cs
            | None => raise (TypeError "'NoneType' object is not iterable")
            end s) as [prefabs s1 | e s1 |]; try discriminate.
  unfold bind at 1, ask at 1. unfold bind at 1.
  destruct (Cmds.parent root_node ROOT_GROUP s1) as [u s2 | e s2 |];
    try discriminate.
  unfold bind at 1.
  destruct (prefabitem.swap_namespace _ _ s2) as [u' s3 | e s3 |];
    try discriminate.
  intros H. inversion H. reflexivity.
Qed.

(** X9.  The namespace a cluster load chooses is computed from the short
    name of the located root alone, as [short_<len(short)>] with Python's
    [len] (the number of characters): two loads whose roots have the same
    short name choose the same namespace, whatever the scenes hold. *)
Theorem cluster_namespace_depends_on_name_only
  (ROOT_GROUP : string) (rigFn_is_prefab : string -> host bool)
  (root1 root2 ns1 ns2 : string) (s1 s1' s2 s2' : scene) :
  Py.last_part (Py.split ":" root1) = Py.last_part (Py.split ":" root2) ->
  prefabclusteritem.PrefabClusterItem_load_from_root
    ROOT_GROUP rigFn_is_prefab root1 s1 = Ok ns1 s1' ->
  prefabclusteritem.PrefabClusterItem_load_from_root
    ROOT_GROUP rigFn_is_prefab root2 s2 = Ok ns2 s2' ->
  ns1 = ns2
  /\ (Py.last_part (Py.split ":" root1) <> "" ->
      ns1 = (Py.last_part (Py.split ":" root1) ++ "_"
             ++ Py.str_of_nat
                  (Py.len (Py.last_part (Py.split ":" root1))))%string).
Proof.
  intros E H1 H2.
  apply cluster_load_from_root_namespace in H1, H2. subst ns1 ns2.
  unfold prefabclusteritem.cluster_namespace. rewrite E. split; [reflexivity |].
  rewrite <- E. intros N. rewrite (truthy_nonempty _ N). reflexivity.
Qed.

Lemma cluster_namespace_depends_on_name_only_witness :
  prefabclusteritem.PrefabClusterItem_load_from_root
    Demo.cluster_root_group Demo.is_prefab "PREFAB_CLUSTER:crowd"
    (Demo.imported_cluster Demo.crowd_fragment Demo.scene_with_cluster_group)
  = Ok "crowd_5" Demo.crowd_once
  /\ prefabclusteritem.PrefabClusterItem_load_from_root
       Demo.cluster_root_group Demo.is_prefab "PREFAB_CLUSTER:crowd"
       (Demo.imported_cluster Demo.crowd_fragment Demo.crowd_once)
     = Ok "crowd_5" Demo.crowd_twice
  /\ "crowd_5" = ("crowd" ++ "_" ++ Py.str_of_nat (Py.len "crowd"))%string.
Proof.
  assert (H1 : prefabclusteritem.PrefabClusterItem_load_from_root
                 Demo.cluster_root_group Demo.is_prefab "PREFAB_CLUSTER:crowd"
                 (Demo.imported_cluster Demo.crowd_fragment
                                        Demo.scene_with_cluster_group)
               = Ok "crowd_5" Demo.crowd_once) by (vm_compute; reflexivity).
  assert (H2 : prefabclusteritem.PrefabClusterItem_load_from_root
                 Demo.cluster_root_group Demo.is_prefab "PREFAB_CLUSTER:crowd"
                 (Demo.imported_cluster Demo.crowd_fragment Demo.crowd_once)
               = Ok "crowd_5" Demo.crowd_twice) by (vm_compute; reflexivity).
  split; [exact H1 |]. split; [exact H2 |].
  destruct (cluster_namespace_depends_on_name_only _ _ _ _ _ _ _ _ _ _
              eq_refl H1 H2) as [_ F].
  apply F. discriminate.
Defined.

Lemma listRelatives_childless (s : scene) (name : string) :
  (forall n p, In n (nodes s) -> node_parent n = Some p ->
               full_name p <> name) ->
  listRelatives_children s name = None.
Proof.
  intros H. unfold listRelatives_children.
  destruct (filter _ (nodes s)) as [|c cs] eqn:F; [reflexivity | exfalso].
  assert (I : In c (c :: cs)) by (left; reflexivity).
  rewrite <- F in I. apply filter_In in I. destruct I as [I P].
  destruct (node_parent c) as [p|] eqn:Q; [| discriminate].
  apply String.eqb_eq in P. exact (H c p I Q P).
Qed.

(** X10.  A cluster whose located root has no child in the scene cannot be
    loaded: listing the children gives Python's [None], iterating over it
    raises [TypeError], and the scene stays as the import made it (nothing
    has been parented or renamed yet). *)
Theorem childless_cluster_fails
  (cmds_file_import : string -> host (list string))
  (path ROOT_GROUP : string) (rigFn_is_prefab : string -> host bool)
  (s s1 : scene) (new_nodes : list string) (root_node : string) :
  cmds_file_import prefabclusteritem.IMPORT_NAMESPACE s = Ok new_nodes s1 ->
  prefabitem.locate_root "isPrefabCluster"
    (prefabclusteritem.root_not_found_msg path) new_nodes s1
  = Ok root_node s1 ->
  (forall n p, In n (nodes s1) -> node_parent n = Some p ->
               full_name p <> root_node) ->
  prefabclusteritem.PrefabClusterItem_load_imported
    cmds_file_import path ROOT_GROUP rigFn_is_prefab s
  = Raise (TypeError "'NoneType' object is not iterable") s1.
Proof.
  intros I L C.
  unfold prefabclusteritem.PrefabClusterItem_load_imported, bind at 1.
  rewrite I. unfold bind at 1. rewrite L.
  unfold prefabclusteritem.PrefabClusterItem_load_from_root.
  unfold bind at 1, ask at 1. rewrite (listRelatives_childless _ _ C).
  reflexivity.
Qed.

Lemma childless_cluster_fails_witness :
  Demo.load_cluster Demo.lonely_fragment Demo.scene_with_cluster_group
  = Raise (TypeError "'NoneType' object is not iterable")
          (Demo.imported_cluster Demo.lonely_fragment
                                 Demo.scene_with_cluster_group).
Proof.
  apply (childless_cluster_fails
           (Cmds.import_fragment Demo.lonely_fragment) "item"
           Demo.cluster_root_group Demo.is_prefab
           Demo.scene_with_cluster_group
           (Demo.imported_cluster Demo.lonely_fragment
                                  Demo.scene_with_cluster_group)
           ["PREFAB_CLUSTER:crowd"] "PREFAB_CLUSTER:crowd").
  - vm_compute. reflexivity.
  - vm_compute. reflexivity.
  - intros n p In Par. vm_compute in In.
    destruct In as [<- | [<- | []]]; discriminate Par.
Defined.

(** ** The module-level save functions *)

Lemma attributeQuery_found (s : scene) (attr name : string) :
  attributeQuery_exists s attr name = true ->
  exists n, find_node s name = Some n.
Proof.
  unfold attributeQuery_exists.
  destruct (find_node s name) as [n|]; [eauto | discriminate].
Qed.

Lemma selected_alone (s : scene) (name : string) (n : node) :
  find_node s name = Some n ->
  ls_selected_transforms (Cmds.with_selection s [node_ref n])
  = if String.eqb (nodeType s name) "transform" then [name] else [].
Proof.
  intros F. pose proof (find_node_name _ _ _ F) as Nm.
  unfold ls_selected_transforms, Cmds.with_selection. cbn [selection filter].
  fold (node_name n). rewrite Nm.
  change (nodeType (mkScene (nodes s) (namespaces s) [node_ref n]) name)
    with (nodeType s name).
  destruct (String.eqb (nodeType s name) "transform"); cbn [map];
    [fold (node_name n); rewrite Nm |]; reflexivity.
Qed.



(** X12.  The module's [save] of [prefabclusteritem.py] does not raise for a
    node it refuses: for a node that does not exist, or that the studio's
    [is_prefab_cluster] rejects, it returns with no save made.  For a
    transform that is accepted and carries [isPrefabCluster] it runs, with
    that node selected, the un-parenting, the generic save routine and the
    parenting under the cluster group. *)
Theorem cluster_module_save_refuses_silently
  (MayaFileItem_save : host unit) (ROOT_GROUP : string)
  (clustersFn_is_prefab_cluster : string -> host bool)
  (root_node : string) (s : scene) :
  (objExists s root_node = false ->
   prefabclusteritem.save MayaFileItem_save ROOT_GROUP
                          clustersFn_is_prefab_cluster root_node s
   = Ok tt s)
  /\ (forall s1,
         objExists s root_node = true ->
         clustersFn_is_prefab_cluster root_node s = Ok false s1 ->
         prefabclusteritem.save MayaFileItem_save ROOT_GROUP
                                clustersFn_is_prefab_cluster root_node s
         = Ok tt s1)
  /\ (forall n,
         find_node s root_node = Some n ->
         clustersFn_is_prefab_cluster root_node s = Ok true s ->
         nodeType s root_node = "transform" ->
         attributeQuery_exists s "isPrefabCluster" root_node = true ->
         prefabclusteritem.save MayaFileItem_save ROOT_GROUP
                                clustersFn_is_prefab_cluster root_node s
         = (Cmds.parent_world root_node ;;; MayaFileItem_save ;;;
            Cmds.parent root_node ROOT_GROUP)
             (Cmds.with_selection s [node_ref n])).
Proof.
  split; [| split].
  - intros E. unfold prefabclusteritem.save, bind, ask. cbv beta iota.
    rewrite E. reflexivity.
  - intros s1 E C. unfold prefabclusteritem.save, bind at 1, ask at 1.
    rewrite E. cbn [negb]. unfold bind at 1. rewrite C. reflexivity.
  - intros n F C T A.
    assert (E : objExists s root_node = true)
      by (unfold objExists; rewrite F; reflexivity).
    unfold prefabclusteritem.save, bind at 1, ask at 1.
    rewrite E. cbn [negb]. unfold bind at 1. rewrite C. cbn [negb].
    unfold bind at 1, Cmds.select_replace at 1. rewrite F.
    unfold prefabclusteritem.PrefabClusterItem_save.
    unfold bind at 1, ask at 1. unfold bind at 1, ask at 1.
    rewrite (selected_alone _ _ _ F), T, String.eqb_refl. cbn [filter].
    change (attributeQuery_exists (Cmds.with_selection s [node_ref n])
                                  "isPrefabCluster" root_node)
      with (attributeQuery_exists s "isPrefabCluster" root_node).
    rewrite A. cbn [orb length Nat.ltb Nat.leb].
    unfold bind at 1, Cmds.select_replace.
    change (find_node (Cmds.with_selection s [node_ref n]) root_node)
      with (find_node s root_node).
    rewrite F. reflexivity.
Qed.

Lemma cluster_module_save_refuses_silently_witness :
  prefabclusteritem.save Demo.save_nothing Demo.cluster_root_group
                         prefabclusteritem.is_prefab_cluster
                         "nobody" Demo.crowd_once
  = Ok tt Demo.crowd_once
  /\ prefabclusteritem.save Demo.save_nothing Demo.cluster_root_group
                            prefabclusteritem.is_prefab_cluster
                            "crowd_5:crowd" Demo.crowd_once
     = (Cmds.parent_world "crowd_5:crowd" ;;; Demo.save_nothing ;;;
        Cmds.parent "crowd_5:crowd" Demo.cluster_root_group)
         (Cmds.with_selection Demo.crowd_once [("crowd_5", "crowd")]).
Proof.
  destruct (cluster_module_save_refuses_silently
              Demo.save_nothing Demo.cluster_root_group
              prefabclusteritem.is_prefab_cluster "nobody" Demo.crowd_once)
    as [Missing _].
  destruct (cluster_module_save_refuses_silently
              Demo.save_nothing Demo.cluster_root_group
              prefabclusteritem.is_prefab_cluster "crowd_5:crowd"
              Demo.crowd_once)
    as [_ [_ Valid]].
  split; [apply Missing; vm_compute; reflexivity |].
  apply (Valid (mkNode "crowd_5" "crowd" "transform"
                       [("isPrefabCluster", AttrBool true)]
                       (Some ("", Demo.cluster_root_group))));
    vm_compute; reflexivity.
Defined.

(** ** Listing and finding namespaces *)

Lemma find_namespaces_loop_total (Match : Type)
  (re_search : string -> string -> exn + option Match)
  (search_ns : string) (all_namespaces : list string) (output : list Match) :
  (forall ns, In ns all_namespaces ->
              exists r, re_search search_ns ns = inr r) ->
  exists found,
    prefabitem.find_namespaces_loop Match re_search search_ns
                                    all_namespaces output
    = inr found.
Proof.
  revert output. induction all_namespaces as [|ns rest IH]; intros output H.
  - exists output. reflexivity.
  - cbn [prefabitem.find_namespaces_loop].
    destruct (H ns (or_introl eq_refl)) as [r E]. rewrite E.
    destruct r as [m|]; apply IH; intros x I; apply H; now right.
Qed.

Lemma list_all_namespaces_unfold (cmds_namespace_set_root : host unit)
  (s : scene) :
  prefabitem.list_all_namespaces cmds_namespace_set_root s
  = match cmds_namespace_set_root (Cmds.with_selection s []) with
    | Ok _ s1 => Ok (namespaces s1) s1
    | Raise e s1 => Raise e s1
    | Diverge => Diverge
    end.
Proof.
  unfold prefabitem.list_all_namespaces, bind, ask, ret, Cmds.select_clear,
    namespaceInfo.
  destruct (cmds_namespace_set_root (Cmds.with_selection s []));
    reflexivity.
Qed.

(** X13.  [find_namespaces] never hands the matches it collects to its
    caller: whatever the host does when the current namespace is set,
    whatever [re.search] answers, and whatever the pattern and the scene,
    no call evaluates to a list.  When setting the current namespace
    succeeds and [re.search] accepts the pattern, the call evaluates to
    Python's [None]. *)
Theorem find_namespaces_returns_nothing
  (cmds_namespace_set_root : host unit) (Match : Type)
  (re_search : string -> string -> exn + option Match)
  (search_ns : string) (s : scene) :
  (forall found s',
      prefabitem.find_namespaces cmds_namespace_set_root Match re_search
                                 search_ns s
      <> Ok (Some found) s')
  /\ (forall s1,
         cmds_namespace_set_root (Cmds.with_selection s []) = Ok tt s1 ->
         (forall ns, In ns (namespaces s1) ->
                     exists r, re_search search_ns ns = inr r) ->
         prefabitem.find_namespaces cmds_namespace_set_root Match re_search
                                    search_ns s
         = Ok None s1).
Proof.
  split.
  - intros found s'. unfold prefabitem.find_namespaces, bind.
    rewrite list_all_namespaces_unfold.
    destruct (cmds_namespace_set_root (Cmds.with_selection s []))
      as [[] s1 | e s1 |]; try discriminate.
    destruct (namespaces s1) as [|ns rest]; [discriminate |].
    destruct (prefabitem.find_namespaces_loop Match re_search search_ns
                (ns :: rest) []); discriminate.
  - intros s1 H R. unfold prefabitem.find_namespaces, bind.
    rewrite list_all_namespaces_unfold, H.
    destruct (namespaces s1) as [|ns rest] eqn:T; [reflexivity |].
    destruct (find_namespaces_loop_total Match re_search search_ns
                (ns :: rest) [] R) as [found E].
    rewrite E. reflexivity.
Qed.

(** ** Removing namespaces *)

Lemma rsplit1_none (sep : ascii) (s : string) :
  Py.char_in sep s = false -> Py.rsplit1 sep s = None.
Proof.
  induction s as [|c s IH]; cbn [Py.char_in Py.rsplit1]; [reflexivity |].
  intros H. apply orb_false_iff in H. destruct H as [C R].
  rewrite (IH R), C. reflexivity.
Qed.

Lemma rsplit1_last (sep : ascii) (a b : string) :
  Py.char_in sep b = false ->
  Py.rsplit1 sep (a ++ String sep b) = Some (a, b).
Proof.
  intros H. induction a as [|c a IH]; cbn [String.append Py.rsplit1].
  - rewrite (rsplit1_none _ _ H), Ascii.eqb_refl. reflexivity.
  - rewrite IH. reflexivity.
Qed.

(** X14.  [remove_namespace_from_node] leaves alone, without calling the
    host, a node whose name has no colon and a node written [:name] in the
    root namespace.  For [ns:name] it asks the host to rename the node to
    [name], the part after the last colon, and swallows a [RuntimeError] of
    that call; so it never raises a [RuntimeError] itself. *)
Theorem remove_namespace_from_node_cases
  (cmds_rename : string -> string -> host string) (s : scene) :
  (forall node,
      Py.char_in ":" node = false ->
      prefabitem.remove_namespace_from_node cmds_rename node s = Ok tt s)
  /\ (forall name,
         Py.char_in ":" name = false ->
         prefabitem.remove_namespace_from_node cmds_rename
                                               (":" ++ name)%string s
         = Ok tt s)
  /\ (forall ns name,
         ns <> "" -> Py.char_in ":" name = false ->
         prefabitem.remove_namespace_from_node cmds_rename
                                               (ns ++ ":" ++ name)%string s
         = match cmds_rename (ns ++ ":" ++ name)%string name s with
           | Ok _ s' => Ok tt s'
           | Raise (RuntimeError _) s' => Ok tt s'
           | Raise e s' => Raise e s'
           | Diverge => Diverge
           end)
  /\ (forall node msg s',
         prefabitem.remove_namespace_from_node cmds_rename node s
         <> Raise (RuntimeError msg) s').
Proof.
  split; [| split; [| split]].
  - intros node H. unfold prefabitem.remove_namespace_from_node.
    rewrite (rsplit1_none _ _ H). reflexivity.
  - intros name H. unfold prefabitem.remove_namespace_from_node.
    change (":" ++ name)%string with ("" ++ String ":" name)%string.
    rewrite (rsplit1_last _ _ _ H). reflexivity.
  - intros ns name N H. unfold prefabitem.remove_namespace_from_node.
    change (ns ++ ":" ++ name)%string with (ns ++ String ":" name)%string.
    rewrite (rsplit1_last _ _ _ H), (truthy_nonempty _ N).
    unfold try_except, bind, ret.
    destruct (cmds_rename _ name s) as [x s1 | [m|m|m|m] s1 |]; reflexivity.
  - intros node msg s'. unfold prefabitem.remove_namespace_from_node.
    destruct (Py.rsplit1 ":" node) as [[ns name]|]; [| discriminate].
    destruct (Py.truthy ns); [| discriminate].
    unfold try_except, bind, ret.
    destruct (cmds_rename node name s) as [x s1 | [m|m|m|m] s1 |];
      discriminate.
Qed.




(** ** What the cache-node name contributes *)

Lemma split_after_sep (sep : ascii) (a b : string) :
  exists h t,
    Py.split sep (a ++ String sep b) = h :: t
    /\ t <> []
    /\ last t "" = last (Py.split sep b) "".
Proof.
  induction a as [|c a [h [t [E [N L]]]]]; cbn [String.append Py.split].
  - rewrite Ascii.eqb_refl. exists "", (Py.split sep b).
    split; [reflexivity |]. split; [apply split_nonempty | reflexivity].
  - rewrite E. destruct (Ascii.eqb c sep).
    + exists "", (h :: t). split; [reflexivity |]. split; [discriminate |].
      rewrite <- L. destruct t; [contradiction | reflexivity].
    + exists (String c h), t. repeat split; assumption.
Qed.

Lemma last_part_strips_namespace (prefix name : string) :
  Py.char_in ":" name = false ->
  Py.last_part (Py.split ":" (prefix ++ ":" ++ name)) = name.
Proof.
  intros H. change (prefix ++ ":" ++ name)%string
    with (prefix ++ String ":" name)%string.
  destruct (split_after_sep ":" prefix name) as [h [t [E [N L]]]].
  unfold Py.last_part. rewrite E.
  replace (last (h :: t) "") with (last t "")
    by (destruct t; [contradiction | reflexivity]).
  rewrite L, (split_no_sep _ _ H). reflexivity.
Qed.

Lemma get_namespace_from_cache_by_base (cacheNode : string)
  (f : prefabitem.cache_name) (s : scene) :
  prefabitem.parse_cache_name cacheNode = inr f ->
  prefabitem.get_namespace_from_cache cacheNode s
  = match first_free (taken_by_node s (cache_base f))
                     (S (length (nodes s))) 0 with
    | Some n => Ok (candidate (cache_base f) n) s
    | None => Diverge
    end.
Proof.
  intros P. unfold prefabitem.get_namespace_from_cache.
  rewrite P, cache_loop_search.
  destruct (first_free _ _ 0); reflexivity.
Qed.

(** X16.  Of a cache node's name only the first five fields of its short
    name count: the namespace of the cache node is stripped before parsing,
    and two cache nodes whose names agree on the five fields, whatever
    their cache versions, are given the same namespace in every scene. *)
Theorem cache_namespace_ignores_version_and_prefix :
  (forall prefix name,
      Py.char_in ":" name = false ->
      prefabitem.parse_cache_name (prefix ++ ":" ++ name)
      = prefabitem.parse_cache_name name)
  /\ (forall c1 c2 f1 f2 s,
         prefabitem.parse_cache_name c1 = inr f1 ->
         prefabitem.parse_cache_name c2 = inr f2 ->
         prefabitem.asset_code f1 = prefabitem.asset_code f2 ->
         prefabitem.asset_descriptor f1 = prefabitem.asset_descriptor f2 ->
         prefabitem.asset_mod f1 = prefabitem.asset_mod f2 ->
         prefabitem.cycle_name f1 = prefabitem.cycle_name f2 ->
         prefabitem.cycle_descriptor f1 = prefabitem.cycle_descriptor f2 ->
         prefabitem.get_namespace_from_cache c1 s
         = prefabitem.get_namespace_from_cache c2 s).
Proof.
  split.
  - intros prefix name H. unfold prefabitem.parse_cache_name.
    rewrite (last_part_strips_namespace _ _ H).
    assert (E : Py.last_part (Py.split ":" name) = name)
      by (rewrite (split_no_sep _ _ H); reflexivity).
    rewrite E. reflexivity.
  - intros c1 c2 f1 f2 s P1 P2 E1 E2 E3 E4 E5.
    rewrite (get_namespace_from_cache_by_base _ _ _ P1),
      (get_namespace_from_cache_by_base _ _ _ P2).
    assert (B : cache_base f1 = cache_base f2)
      by (unfold cache_base; congruence).
    rewrite B. reflexivity.
Qed.

Lemma cache_namespace_ignores_version_and_prefix_witness :
  prefabitem.get_namespace_from_cache
    "SHOT:c027_shepherd_m00_tall_dancing_03" Demo.hero_once
  = prefabitem.get_namespace_from_cache
      "c027_shepherd_m00_tall_dancing_07" Demo.hero_once.
Proof.
  destruct cache_namespace_ignores_version_and_prefix as [_ V].
  apply (V _ _ (prefabitem.mkCacheName "c027" "shepherd" "m00" "tall"
                                       "dancing" "03")
           (prefabitem.mkCacheName "c027" "shepherd" "m00" "tall"
                                   "dancing" "07"));
    reflexivity.
Defined.

Lemma parse_cache_name_roundtrip_witness :
  prefabitem.parse_cache_name
    (Py.join "_" ["c027"; "shepherd"; "m00"; "tall"; "dancing"; "03"])
  = inr (prefabitem.mkCacheName "c027" "shepherd" "m00" "tall" "dancing" "03").
Proof.
  apply parse_cache_name_roundtrip. reflexivity.
Defined.
